(** * AnomalyModule: the lifecycle hooks of [anomalib.core.model.anomaly_module]

    A shallow embedding of the class [AnomalyModule] and a proof of the
    properties its specification lists.

    The module is glue code over collaborators that live elsewhere (the tensor
    library, the results aggregators, the threshold helper, the training
    framework and the subclass hook [validation_step]).  Those are taken as
    parameters, bundled in type classes; everything the file itself does (key
    tests on the output dictionary, the order of evaluation, the assignment of
    the threshold, the exceptions) is written out. *)

From stdpp Require Import base strings gmap list.
From Stdlib Require Import ZArith Lia.

Set Default Proof Using "Type".
Open Scope string_scope.

(** ** Exceptions and fallible results *)

Inductive exn : Type :=
  | NotImplementedError (msg : string)
  | KeyError (key : string)
  | IndexError
  | RuntimeError
  | TypeError
  | AttributeError
  | ExternalError (tag : string).

Inductive result (A : Type) : Type :=
  | Ok (a : A)
  | Raise (e : exn).
Arguments Ok {A} a.
Arguments Raise {A} e.

#[global] Instance result_ret : MRet result := fun _ a => Ok a.
#[global] Instance result_bind : MBind result := fun _ _ f r =>
  match r with
  | Ok a => f a
  | Raise e => Raise e
  end.

(** ** Scalars and tensors

    Scalars are the numbers the program computes with: the elements of a
    tensor and the floats of Python.  Their comparison [>=], the maximum of
    two of them, the rounding to single precision that [torch.Tensor] applies
    to what it stores, and the number a boolean stands for are parameters. *)

Class Domain : Type := {
  scalar : Type;
  sge : scalar -> scalar -> bool;       (* x >= y *)
  smax : scalar -> scalar -> scalar;    (* max of two scalars *)
  to_float32 : scalar -> scalar;        (* the nearest single-precision float *)
  of_bool : bool -> scalar;             (* True as 1, False as 0 *)
  other : Type;                         (* values the hooks never inspect *)
  array : Type;                         (* sequences held by the aggregator *)
  metric : Type;                        (* values of the performance mapping *)
  rstate : Type;                        (* internal state of an aggregator *)
  batch : Type;                         (* an input batch *)
}.

(** The laws of an ordered scalar type, assumed only where a statement speaks
    of "the maximum". *)
Class DomainOrder (D : Domain) : Prop := {
  sge_refl : forall x : scalar, sge x x = true;
  sge_trans : forall x y z : scalar, sge x y = true -> sge y z = true -> sge x z = true;
  smax_cases : forall x y : scalar, smax x y = x \/ smax x y = y;
  smax_ge_l : forall x y : scalar, sge (smax x y) x = true;
  smax_ge_r : forall x y : scalar, sge (smax x y) y = true;
}.

Section Tensors.
Context {D : Domain}.

(** A tensor: its shape and its elements in row-major order. *)
Record tensor : Type := Tensor { shape : list nat; data : list scalar }.

Definition numel (sh : list nat) : nat := foldr Nat.mul 1 sh.

Definition tensor_wf (t : tensor) : Prop := length (data t) = numel (shape t).

(** What a key of an output dictionary can hold. *)
Inductive value : Type :=
  | VTensor (t : tensor)                          (* a numeric tensor *)
  | VMask (sh : list nat) (bits : list bool)      (* a boolean tensor *)
  | VOther (o : other).                           (* anything else *)

(** [torch.Tensor([x])]: a one-element tensor of single precision; it holds
    [x] rounded. *)
Definition tensor_of_scalar (x : scalar) : tensor := Tensor [1] [to_float32 x].

(** [t.item()]: the element of a one-element tensor. *)
Definition item (t : tensor) : result scalar :=
  match data t with
  | [x] => Ok x
  | _ => Raise RuntimeError
  end.

(** [t.reshape(t.shape[0], -1)]: one row per sample.  A tensor without
    dimensions has no [shape[0]]; with an empty first dimension the size
    behind [-1] cannot be inferred. *)
Fixpoint rows {A} (n m : nat) (l : list A) : list (list A) :=
  match n with
  | 0 => []
  | S n' => take m l :: rows n' m (drop m l)
  end.

Definition reshape_rows {A} (sh : list nat) (l : list A) : result (list (list A)) :=
  match sh with
  | [] => Raise IndexError
  | n :: rest => if (n =? 0)%nat then Raise RuntimeError else Ok (rows n (numel rest) l)
  end.

Definition reshape_batch (t : tensor) : result (list (list scalar)) :=
  reshape_rows (shape t) (data t).

(** [.max(axis=1).values]: the maximum of each row; an empty row has none,
    and the reduction over it raises IndexError. *)
Definition row_max (r : list scalar) : result scalar :=
  match r with
  | [] => Raise IndexError
  | x :: xs => Ok (foldl smax x xs)
  end.

Fixpoint max_axis1 (rs : list (list scalar)) : result (list scalar) :=
  match rs with
  | [] => Ok []
  | r :: rs' => x ← row_max r; xs ← max_axis1 rs'; Ok (x :: xs)
  end.

(** The same on a boolean tensor, where the maximum of two booleans is their
    disjunction. *)
Definition row_max_bool (r : list bool) : result bool :=
  match r with
  | [] => Raise IndexError
  | x :: xs => Ok (foldl orb x xs)
  end.

Fixpoint max_axis1_bool (rs : list (list bool)) : result (list bool) :=
  match rs with
  | [] => Ok []
  | r :: rs' => x ← row_max_bool r; xs ← max_axis1_bool rs'; Ok (x :: xs)
  end.

(** [v.reshape(v.shape[0], -1).max(axis=1).values]: a numeric tensor gives a
    numeric one, a boolean tensor a boolean one; a value that is no tensor
    has no [reshape]. *)
Definition max_over_maps (v : value) : result value :=
  match v with
  | VTensor t =>
      rs ← reshape_batch t;
      s ← max_axis1 rs;
      Ok (VTensor (Tensor [length s] s))
  | VMask sh bits =>
      rs ← reshape_rows sh bits;
      s ← max_axis1_bool rs;
      Ok (VMask [length s] s)
  | VOther _ => Raise AttributeError
  end.

(** [v >= x]: element-wise comparison with a scalar; the elements of a
    boolean tensor are compared as numbers. *)
Definition ge_scalar (v : value) (x : scalar) : result value :=
  match v with
  | VTensor t => Ok (VMask (shape t) ((fun y => sge y x) <$> data t))
  | VMask sh bits => Ok (VMask sh ((fun b => sge (of_bool b) x) <$> bits))
  | VOther _ => Raise TypeError
  end.

(** The scores a value holds, as numbers. *)
Definition scores_of (v : value) : option tensor :=
  match v with
  | VTensor t => Some t
  | VMask sh bits => Some (Tensor sh (of_bool <$> bits))
  | VOther _ => None
  end.

(** ** Output dictionaries *)

Definition contains (k : string) (d : gmap string value) : bool :=
  match d !! k with
  | Some _ => true
  | None => false
  end.

(** [d[k]] *)
Definition getitem (d : gmap string value) (k : string) : result value :=
  match d !! k with
  | Some v => Ok v
  | None => Raise (KeyError k)
  end.

(** ** The module and its aggregator *)

Inductive ResultsClass : Type := ClassificationResults | SegmentationResults.

Record Results : Type := { results_class : ResultsClass; results_state : rstate }.

(** What the hooks do that can be observed from outside, oldest first. *)
Inductive event : Type :=
  | EvSetThreshold (t : tensor)                  (* [self.threshold = t] *)
  | EvLog (name : string) (v : metric).          (* [self.log(name, v, ...)] *)

Record AnomalyModule : Type := {
  hparams : string * bool * scalar;
  adaptive_threshold : bool;
  threshold : tensor;
  results : Results;
  trace : list event;
}.

(** A method: it runs on the module, may change it, and returns or raises.
    What it changed before raising stays changed. *)
Definition M (A : Type) : Type := AnomalyModule -> AnomalyModule * result A.

#[global] Instance M_ret : MRet M := fun _ a self => (self, Ok a).
#[global] Instance M_bind : MBind M := fun _ _ f c self =>
  match c self with
  | (self', Ok a) => f a self'
  | (self', Raise e) => (self', Raise e)
  end.

Definition get {A} (f : AnomalyModule -> A) : M A := fun self => (self, Ok (f self)).
Definition lift {A} (r : result A) : M A := fun self => (self, r).

End Tensors.

(** ** Collaborators

    The aggregator classes, the threshold helper and the hook
    [validation_step] that subclasses define are not part of this file.  A
    method of the aggregator sees the aggregator only: it gets its class and
    state and gives back the new state, and whether it returned or raised. *)

Class Collaborators (D : Domain) : Type := {
  (* [ClassificationResults()], [SegmentationResults()] *)
  results_new : ResultsClass -> rstate;
  (* [results.store_outputs(outputs)] *)
  store_outputs : ResultsClass -> rstate -> list (gmap string value) -> rstate * result unit;
  (* [results.evaluate(threshold)] *)
  evaluate : ResultsClass -> rstate -> scalar -> rstate * result unit;
  (* the attributes [results.true_labels], [results.pred_scores] *)
  true_labels : rstate -> array;
  pred_scores : rstate -> array;
  (* [results.performance.items()] *)
  performance : rstate -> list (string * metric);
  (* [anomalib.utils.metrics.compute_threshold_and_f1_score] *)
  compute_threshold_and_f1_score : array -> array -> result (scalar * scalar);
  (* the subclass hook [validation_step(batch, batch_idx)] *)
  validation_step : batch -> nat -> M (gmap string value);
}.

Section Module.
Context {D : Domain} {C : Collaborators D}.

Definition mk_results (c : ResultsClass) : Results :=
  {| results_class := c; results_state := results_new c |}.

(** [AnomalyModule.__init__] *)
Definition __init__ (task : string) (adaptive : bool) (default_threshold : scalar)
    : result AnomalyModule :=
  let self (r : Results) :=
    {| hparams := (task, adaptive, default_threshold);
       adaptive_threshold := adaptive;
       threshold := tensor_of_scalar default_threshold;
       results := r;
       trace := [] |} in
  if String.eqb task "classification" then
    Ok (self (mk_results ClassificationResults))
  else if String.eqb task "segmentation" then
    Ok (self (mk_results SegmentationResults))
  else
    Raise (NotImplementedError
             "Only Classification and Segmentation tasks are supported in this version.").

(** Assignments to attributes of [self]. *)
Definition set_threshold (t : tensor) : M unit := fun self =>
  ({| hparams := hparams self;
      adaptive_threshold := adaptive_threshold self;
      threshold := t;
      results := results self;
      trace := trace self ++ [EvSetThreshold t] |}, Ok ()).

Definition set_results_state (st : rstate) (self : AnomalyModule) : AnomalyModule :=
  {| hparams := hparams self;
     adaptive_threshold := adaptive_threshold self;
     threshold := threshold self;
     results := {| results_class := results_class (results self); results_state := st |};
     trace := trace self |}.

(** [self.log(name=name, value=value, on_epoch=True, prog_bar=True)] *)
Definition log (name : string) (v : metric) : M unit := fun self =>
  ({| hparams := hparams self;
      adaptive_threshold := adaptive_threshold self;
      threshold := threshold self;
      results := results self;
      trace := trace self ++ [EvLog name v] |}, Ok ()).

(** [self.results.store_outputs(outputs)] and [self.results.evaluate(x)] *)
Definition results_store_outputs (outputs : list (gmap string value)) : M unit := fun self =>
  let r := results self in
  let '(st, res) := store_outputs (results_class r) (results_state r) outputs in
  (set_results_state st self, res).

Definition results_evaluate (x : scalar) : M unit := fun self =>
  let r := results self in
  let '(st, res) := evaluate (results_class r) (results_state r) x in
  (set_results_state st self, res).

(** [AnomalyModule._log_metrics] *)
Fixpoint log_items (items : list (string * metric)) : M unit :=
  match items with
  | [] => mret ()
  | (name, v) :: rest => log name v ;; log_items rest
  end.

Definition _log_metrics : M unit :=
  r ← get results;
  log_items (performance (results_state r)).

(** [AnomalyModule._post_process].  The dictionary is changed in place: the
    first component is the dictionary as the call leaves it, also when the
    call raises; on [Ok] it is the value returned as well. *)
Definition _post_process (self : AnomalyModule) (outputs : gmap string value)
    (predict_labels : bool) : gmap string value * result unit :=
  let scored :=
    if negb (contains "pred_scores" outputs) && contains "anomaly_maps" outputs then
      maps ← getitem outputs "anomaly_maps";
      s ← max_over_maps maps;
      Ok (<["pred_scores" := s]> outputs)
    else Ok outputs in
  match scored with
  | Raise e => (outputs, Raise e)
  | Ok outputs1 =>
      if predict_labels then
        let labels :=
          s ← getitem outputs1 "pred_scores";
          x ← item (threshold self);
          ge_scalar s x in
        match labels with
        | Raise e => (outputs1, Raise e)
        | Ok l => (<["pred_labels" := l]> outputs1, Ok ())
        end
      else (outputs1, Ok ())
  end.

(** A hook that post-processes the dictionary it is given and returns it. *)
Definition post_processed (outputs : gmap string value) (predict_labels : bool)
    : M (gmap string value) := fun self =>
  match _post_process self outputs predict_labels with
  | (outputs', Ok _) => (self, Ok outputs')
  | (_, Raise e) => (self, Raise e)
  end.

(** [AnomalyModule.predict_step] *)
Definition predict_step (b : batch) (batch_idx : nat) (dataloader_idx : nat)
    : M (gmap string value) :=
  outputs ← validation_step b batch_idx;
  post_processed outputs true.

(** [AnomalyModule.test_step] *)
Definition test_step (b : batch) (batch_idx : nat) : M (gmap string value) :=
  validation_step b batch_idx.

(** [AnomalyModule.validation_step_end] *)
Definition validation_step_end (val_step_outputs : gmap string value)
    : M (gmap string value) :=
  post_processed val_step_outputs false.

(** [AnomalyModule.test_step_end] *)
Definition test_step_end (test_step_outputs : gmap string value)
    : M (gmap string value) :=
  post_processed test_step_outputs false.

(** [AnomalyModule.validation_epoch_end] *)
Definition validation_epoch_end (outputs : list (gmap string value)) : M unit :=
  results_store_outputs outputs ;;
  adaptive ← get adaptive_threshold;
  (if adaptive : bool then
     r ← get results;
     tf ← lift (compute_threshold_and_f1_score
                  (true_labels (results_state r)) (pred_scores (results_state r)));
     set_threshold (tensor_of_scalar tf.1)
   else mret ()) ;;
  x ← (fun self => (self, item (threshold self)));
  results_evaluate x ;;
  _log_metrics.

(** [AnomalyModule.test_epoch_end] *)
Definition test_epoch_end (outputs : list (gmap string value)) : M unit :=
  results_store_outputs outputs ;;
  x ← (fun self => (self, item (threshold self)));
  results_evaluate x ;;
  _log_metrics.

(** ** Notions the statements use *)

(** The threshold holds a single scalar [x]. *)
Definition single_scalar (t : tensor) : Prop := exists x, t = tensor_of_scalar x.

(** How many times the threshold was assigned. *)
Definition is_set_threshold (e : event) : bool :=
  match e with
  | EvSetThreshold _ => true
  | EvLog _ _ => false
  end.

Definition threshold_updates (self : AnomalyModule) : nat :=
  length (List.filter is_set_threshold (trace self)).

(** A step that leaves the threshold, the mode and the class of the aggregator
    as they were and assigns no threshold. *)
Definition same_threshold (self self' : AnomalyModule) : Prop :=
  threshold self' = threshold self /\
  adaptive_threshold self' = adaptive_threshold self /\
  threshold_updates self' = threshold_updates self /\
  results_class (results self') = results_class (results self).

Definition keeps_threshold {A} (c : M A) : Prop :=
  forall self, same_threshold self (c self).1.

(** [labels] are the scores [s] compared with [x], sample by sample. *)
Definition labels_are (x : scalar) (s : tensor) (labels : list bool) : Prop :=
  length labels = length (data s) /\
  forall i y, data s !! i = Some y ->
    exists l, labels !! i = Some l /\ (l = true <-> sge y x = true).

(** [out] is the batch [outputs] with its scores under the predicted-scores
    key (the ones it had, or else the ones derived from its anomaly maps) and,
    under the predicted-labels key, those scores compared with the threshold
    [th]. *)
Definition labelled_from (th : tensor) (outputs out : gmap string value) : Prop :=
  exists (v : value) (s : tensor) (x : scalar) (labels : list bool),
    (outputs !! "pred_scores" = Some v \/
     (outputs !! "pred_scores" = None /\
      exists maps, outputs !! "anomaly_maps" = Some maps /\ max_over_maps maps = Ok v)) /\
    scores_of v = Some s /\
    item th = Ok x /\
    out = <["pred_labels" := VMask (shape s) labels]> (<["pred_scores" := v]> outputs) /\
    labels_are x s labels.

(** The elements of sample [i] of a tensor whose samples have [m] elements. *)
Definition sample (m i : nat) (t : tensor) : list scalar :=
  take m (drop (i * m) (data t)).

(** [x] is a maximum of [l]. *)
Definition is_max_of (x : scalar) (l : list scalar) : Prop :=
  x ∈ l /\ forall y, y ∈ l -> sge x y = true.

End Module.

(** ** A concrete instance

    Integer scores and a small aggregator, used to run the hooks on concrete
    inputs.  The aggregator keeps the labels and scores of the outputs it was
    given; its threshold helper proposes the largest score. *)

Module Example.

Record agg : Type := { agg_labels : list Z; agg_scores : list Z; agg_perf : list (string * Z) }.

(** An integer rounded to single precision: 24 significant bits, ties to
    the even neighbour.  The range of single precision is not modelled. *)
Definition z_float32 (z : Z) : Z :=
  let a := Z.abs z in
  if (a <? 16777216)%Z then z else
  let e := (Z.log2 a - 23)%Z in
  let q := (a / 2 ^ e)%Z in
  let r := (a mod 2 ^ e)%Z in
  let half := (2 ^ (e - 1))%Z in
  let q' := if (r <? half)%Z then q
            else if (half <? r)%Z then (q + 1)%Z
            else if Z.even q then q else (q + 1)%Z in
  (Z.sgn z * (q' * 2 ^ e))%Z.

#[global] Instance ZDomain : Domain := {|
  scalar := Z;
  sge := Z.geb;
  smax := Z.max;
  to_float32 := z_float32;
  of_bool := fun b => if b then 1%Z else 0%Z;
  other := string;
  array := list Z;
  metric := Z;
  rstate := agg;
  batch := list nat * list Z;
|}.

Definition tensor_data (v : option (@value ZDomain)) : list Z :=
  match v with
  | Some (VTensor t) => data t
  | _ => []
  end.

Definition z_store_outputs (c : ResultsClass) (st : agg) (outputs : list (gmap string (@value ZDomain)))
    : agg * result unit :=
  if forallb (contains "pred_scores") outputs then
    ({| agg_labels := concat (map (fun o => tensor_data (o !! "label")) outputs);
        agg_scores := concat (map (fun o => tensor_data (o !! "pred_scores")) outputs);
        agg_perf := agg_perf st |}, Ok ())
  else (st, Raise (KeyError "pred_scores")).

Definition z_evaluate (c : ResultsClass) (st : agg) (x : Z) : agg * result unit :=
  ({| agg_labels := agg_labels st;
      agg_scores := agg_scores st;
      agg_perf := [("positives", Z.of_nat (length (filter (fun s => (x <= s)%Z) (agg_scores st))))] |},
   Ok ()).

Definition z_compute_threshold (labels scores : list Z) : result (Z * Z) :=
  match scores with
  | [] => Raise (ExternalError "no scores")
  | s :: rest => Ok (foldl Z.max s rest, 1%Z)
  end.

Definition z_validation_step (b : list nat * list Z) (batch_idx : nat)
    : @M ZDomain (gmap string (@value ZDomain)) := fun self =>
  (self, Ok {[ "anomaly_maps" := VTensor (Tensor b.1 b.2) ]}).

#[global] Instance ZCollaborators : Collaborators ZDomain := {|
  results_new := fun _ => {| agg_labels := []; agg_scores := []; agg_perf := [] |};
  store_outputs := z_store_outputs;
  evaluate := z_evaluate;
  true_labels := agg_labels;
  pred_scores := agg_scores;
  performance := agg_perf;
  compute_threshold_and_f1_score := z_compute_threshold;
  validation_step := z_validation_step;
|}.

(** A module in adaptive mode with threshold 5, and one with a fixed
    threshold. *)
Definition adaptive_module : @AnomalyModule ZDomain :=
  {| hparams := ("classification", true, 5%Z);
     adaptive_threshold := true;
     threshold := tensor_of_scalar 5%Z;
     results := mk_results ClassificationResults;
     trace := [] |}.

Definition fixed_module : @AnomalyModule ZDomain :=
  {| hparams := ("segmentation", false, 5%Z);
     adaptive_threshold := false;
     threshold := tensor_of_scalar 5%Z;
     results := mk_results SegmentationResults;
     trace := [] |}.

(** Two samples with 2x2 anomaly maps. *)
Definition maps22 : @tensor ZDomain := Tensor [2; 2; 2] [1; 7; 3; 2; 4; 0; 9; 6]%Z.

Definition scored : gmap string (@value ZDomain) :=
  {[ "pred_scores" := VTensor (Tensor [3] [2; 5; 8]%Z) ]}.

Definition mapped : gmap string (@value ZDomain) :=
  {[ "anomaly_maps" := VTensor maps22 ]}.

Definition unscored : gmap string (@value ZDomain) :=
  {[ "image_path" := VOther "a.png" ]}.

(** Scores of double precision, the largest of which single precision cannot
    hold: 16777217 is 2^24 + 1. *)
Definition scored_wide : gmap string (@value ZDomain) :=
  {[ "pred_scores" := VTensor (Tensor [3] [2; 16777216; 16777217]%Z) ]}.

End Example.

(** ** Notions for the effects of the hooks *)

Section Effects.
Context {D : Domain}.

(** The calls of [self.log] that a loop over [items] makes, in order. *)
Definition log_events (items : list (string * metric)) : list event :=
  (fun p => EvLog p.1 p.2) <$> items.

(** The module after the effects [evs] were added to what it has done. *)
Definition add_trace (evs : list event) (self : AnomalyModule) : AnomalyModule :=
  {| hparams := hparams self;
     adaptive_threshold := adaptive_threshold self;
     threshold := threshold self;
     results := results self;
     trace := trace self ++ evs |}.

(** What construction fixes: the hyperparameters, the mode and the class of
    the aggregator. *)
Definition same_config (self self' : AnomalyModule) : Prop :=
  hparams self' = hparams self /\
  adaptive_threshold self' = adaptive_threshold self /\
  results_class (results self') = results_class (results self).

Definition keeps_config {A} (c : M A) : Prop :=
  forall self, same_config self (c self).1.

(** The labels of the scores [s] at the threshold [x]. *)
Definition labels_at (x : scalar) (s : tensor) : value :=
  VMask (shape s) ((fun y => sge y x) <$> data s).

End Effects.

(** A second aggregator for the concrete instance: the same, but its
    evaluation refuses to run without scores. *)
Module Strict.
Import Example.

Definition z_evaluate_strict (c : ResultsClass) (st : agg) (x : Z) : agg * result unit :=
  match agg_scores st with
  | [] => (st, Raise (ExternalError "nothing to evaluate"))
  | _ :: _ => z_evaluate c st x
  end.

Definition StrictCollaborators : Collaborators ZDomain := {|
  results_new := fun _ => {| agg_labels := []; agg_scores := []; agg_perf := [] |};
  store_outputs := z_store_outputs;
  evaluate := z_evaluate_strict;
  true_labels := agg_labels;
  pred_scores := agg_scores;
  performance := agg_perf;
  compute_threshold_and_f1_score := z_compute_threshold;
  validation_step := z_validation_step;
|}.

(** The aggregator when new, after the scores 2, 5, 8 were stored, and after
    its evaluation at a threshold that [k] of them reach. *)
Definition empty : agg := {| agg_labels := []; agg_scores := []; agg_perf := [] |}.
Definition stored : agg := {| agg_labels := []; agg_scores := [2; 5; 8]%Z; agg_perf := [] |}.
Definition evaluated (k : Z) : agg :=
  {| agg_labels := []; agg_scores := [2; 5; 8]%Z; agg_perf := [("positives", k)] |}.

(** The same for the scores 2, 16777216, 16777217. *)
Definition stored_wide : agg :=
  {| agg_labels := []; agg_scores := [2; 16777216; 16777217]%Z; agg_perf := [] |}.
Definition evaluated_wide (k : Z) : agg :=
  {| agg_labels := []; agg_scores := [2; 16777216; 16777217]%Z;
     agg_perf := [("positives", k)] |}.

End Strict.

(** ** Steps that do not touch the threshold *)

Section Frame.
Context {D : Domain} {C : Collaborators D}.

Lemma same_threshold_refl (self : AnomalyModule) : same_threshold self self.
Proof. by repeat split. Qed.

Lemma same_threshold_trans (s1 s2 s3 : AnomalyModule) :
  same_threshold s1 s2 -> same_threshold s2 s3 -> same_threshold s1 s3.
Proof.
  intros (H1 & H2 & H3 & H4) (K1 & K2 & K3 & K4).
  repeat split; congruence.
Qed.

Lemma keeps_ret {A} (a : A) : keeps_threshold (mret a).
Proof. intros self. apply same_threshold_refl. Qed.

Lemma keeps_get {A} (f : AnomalyModule -> A) : keeps_threshold (get f).
Proof. intros self. apply same_threshold_refl. Qed.

Lemma keeps_lift {A} (r : result A) : keeps_threshold (lift r).
Proof. intros self. apply same_threshold_refl. Qed.

Lemma keeps_read {A} (f : AnomalyModule -> result A) :
  keeps_threshold (fun self => (self, f self)).
Proof. intros self. apply same_threshold_refl. Qed.

Lemma keeps_bind {A B} (c : M A) (f : A -> M B) :
  keeps_threshold c -> (forall a, keeps_threshold (f a)) -> keeps_threshold (c ≫= f).
Proof.
  intros Hc Hf self. unfold mbind, M_bind.
  specialize (Hc self). destruct (c self) as [self1 [a|e]]; simpl in *.
  - eapply same_threshold_trans; [exact Hc | apply Hf].
  - exact Hc.
Qed.

Lemma threshold_updates_log (self : AnomalyModule) (name : string) (v : metric) :
  threshold_updates (log name v self).1 = threshold_updates self.
Proof.
  unfold threshold_updates, log. simpl.
  rewrite List.filter_app, length_app. simpl. lia.
Qed.

Lemma keeps_log (name : string) (v : metric) : keeps_threshold (log name v).
Proof.
  intros self. split; [reflexivity|]. split; [reflexivity|].
  split; [apply threshold_updates_log | reflexivity].
Qed.

Lemma keeps_log_items (items : list (string * metric)) : keeps_threshold (log_items items).
Proof.
  induction items as [|[name v] rest IH]; simpl.
  - apply keeps_ret.
  - apply keeps_bind; [apply keeps_log | intros _; exact IH].
Qed.

Lemma keeps_log_metrics : keeps_threshold _log_metrics.
Proof.
  unfold _log_metrics. apply keeps_bind; [apply keeps_get|].
  intros r. apply keeps_log_items.
Qed.

Lemma keeps_store_outputs (outputs : list (gmap string value)) :
  keeps_threshold (results_store_outputs outputs).
Proof.
  intros self. unfold results_store_outputs.
  destruct (store_outputs _ _ _) as [st res]. by repeat split.
Qed.

Lemma keeps_evaluate (x : scalar) : keeps_threshold (results_evaluate x).
Proof.
  intros self. unfold results_evaluate.
  destruct (evaluate _ _ _) as [st res]. by repeat split.
Qed.

(** The end of both epoch hooks: evaluate at the threshold, then log. *)
Lemma keeps_evaluate_and_log :
  keeps_threshold
    ((fun self => (self, item (threshold self))) ≫= fun x =>
       results_evaluate x ≫= fun _ => _log_metrics).
Proof.
  apply keeps_bind; [apply keeps_read|]. intros x.
  apply keeps_bind; [apply keeps_evaluate|]. intros _.
  apply keeps_log_metrics.
Qed.

Lemma keeps_test_epoch_end (outputs : list (gmap string value)) :
  keeps_threshold (test_epoch_end outputs).
Proof.
  unfold test_epoch_end.
  apply keeps_bind; [apply keeps_store_outputs|]. intros _.
  apply keeps_evaluate_and_log.
Qed.

Lemma threshold_updates_set (self : AnomalyModule) (t : tensor) :
  threshold_updates (set_threshold t self).1 = S (threshold_updates self).
Proof.
  unfold threshold_updates, set_threshold. simpl.
  rewrite List.filter_app, length_app. simpl. lia.
Qed.

End Frame.

(** ** The epoch hooks *)

Section Epochs.
Context {D : Domain} {C : Collaborators D}.

Lemma run_bind {A B} (c : M A) (f : A -> M B) (self : AnomalyModule) :
  (c ≫= f) self =
  match c self with
  | (self', Ok a) => f a self'
  | (self', Raise e) => (self', Raise e)
  end.
Proof. reflexivity. Qed.

Lemma log_items_ok (items : list (string * metric)) (self : AnomalyModule) :
  (log_items items self).2 = Ok ().
Proof.
  revert self. induction items as [|[name v] rest IH]; intros self; simpl; [done|].
  rewrite run_bind. simpl. apply IH.
Qed.

Lemma log_metrics_ok (self : AnomalyModule) : (_log_metrics self).2 = Ok ().
Proof. unfold _log_metrics. rewrite run_bind. simpl. apply log_items_ok. Qed.

Lemma run_get {A B} (f : AnomalyModule -> A) (k : A -> M B) (self : AnomalyModule) :
  (get f ≫= k) self = k (f self) self.
Proof. reflexivity. Qed.

Lemma run_lift {A B} (r : result A) (k : A -> M B) (self : AnomalyModule) :
  (lift r ≫= k) self =
  match r with
  | Ok a => k a self
  | Raise e => (self, Raise e)
  end.
Proof. by destruct r. Qed.

Lemma set_threshold_run (t : tensor) (self : AnomalyModule) :
  set_threshold t self = ((set_threshold t self).1, Ok ()).
Proof. reflexivity. Qed.

(** What [validation_epoch_end] does to the threshold: nothing, or one
    assignment of a one-element tensor, the latter in adaptive mode only. *)
Lemma validation_epoch_end_cases (outputs : list (gmap string value)) (self : AnomalyModule) :
  let self' := (validation_epoch_end outputs self).1 in
  same_threshold self self' \/
  (adaptive_threshold self = true /\
   (exists t, threshold self' = tensor_of_scalar t) /\
   threshold_updates self' = S (threshold_updates self)).
Proof.
  unfold validation_epoch_end. rewrite run_bind.
  pose proof (keeps_store_outputs outputs self) as H1.
  destruct (results_store_outputs outputs self) as [self1 [[]|e]]; simpl in *; [|by left].
  rewrite run_get.
  destruct (adaptive_threshold self1) eqn:Had.
  - rewrite run_bind, run_get, run_lift.
    destruct (compute_threshold_and_f1_score _ _) as [[t f1]|e]; cbv beta iota; [|by left].
    rewrite set_threshold_run. cbv beta iota. cbn [fst].
    pose proof (keeps_evaluate_and_log (set_threshold (tensor_of_scalar t) self1).1) as H2.
    destruct H1 as (K1 & K2 & K3 & K4), H2 as (L1 & L2 & L3 & L4).
    right. split; [congruence|]. split.
    + exists t. rewrite L1. reflexivity.
    + rewrite L3. rewrite threshold_updates_set. by rewrite K3.
  - rewrite run_bind. simpl. left.
    eapply same_threshold_trans; [exact H1|]. apply keeps_evaluate_and_log.
Qed.

(** C1, as amended. In adaptive-threshold mode, once [validation_epoch_end]
    has stored the outputs and the threshold helper has returned [(t, f1)] on
    the true labels and predicted scores the aggregator then holds, the
    threshold of the module is the one-element tensor holding [t] rounded to
    single precision, whatever [f1] is; reading it back gives [t] itself when
    single precision holds [t] exactly; and the hook returns normally when
    the evaluation at the rounded value does. *)
Theorem validation_epoch_end_adaptive
    (self : AnomalyModule) (outputs : list (gmap string value))
    (st1 : rstate) (t f1 : scalar) :
  adaptive_threshold self = true ->
  store_outputs (results_class (results self)) (results_state (results self)) outputs
    = (st1, Ok ()) ->
  compute_threshold_and_f1_score (true_labels st1) (pred_scores st1) = Ok (t, f1) ->
  threshold (validation_epoch_end outputs self).1 = Tensor [1] [to_float32 t] /\
  item (threshold (validation_epoch_end outputs self).1) = Ok (to_float32 t) /\
  (to_float32 t = t -> item (threshold (validation_epoch_end outputs self).1) = Ok t) /\
  (forall st2,
     evaluate (results_class (results self)) st1 (to_float32 t) = (st2, Ok ()) ->
     (validation_epoch_end outputs self).2 = Ok ()).
Proof.
  intros Had Hst Hc.
  set (self2 := (set_threshold (tensor_of_scalar t) (set_results_state st1 self)).1).
  assert (validation_epoch_end outputs self
          = ((fun self => (self, item (threshold self))) ≫= fun x =>
               results_evaluate x ≫= fun _ => _log_metrics) self2) as ->.
  { unfold validation_epoch_end. rewrite run_bind.
    unfold results_store_outputs at 1. rewrite Hst. cbv beta iota zeta.
    rewrite run_get. change (adaptive_threshold (set_results_state st1 self))
      with (adaptive_threshold self). rewrite Had.
    rewrite (run_bind (_ ≫= _)), run_get, run_lift.
    change (results_state (results (set_results_state st1 self))) with st1.
    rewrite Hc. rewrite set_threshold_run. reflexivity. }
  destruct (keeps_evaluate_and_log self2) as (H & _).
  split; [by rewrite H|]. split; [by rewrite H|]. split.
  - intros Hexact. rewrite H. cbn. by rewrite Hexact.
  - intros st2 Hev. rewrite run_bind. cbv beta iota.
    change (item (threshold self2)) with (Ok (A:=scalar) (to_float32 t)). cbv beta iota.
    rewrite run_bind. unfold results_evaluate.
    change (results_class (results self2)) with (results_class (results self)).
    change (results_state (results self2)) with st1.
    rewrite Hev. cbv beta iota. apply log_metrics_ok.
Qed.

(** C2. With adaptive-threshold mode off, the threshold after
    [validation_epoch_end] is the threshold before it, whatever the outputs
    and whether the hook returns or raises. *)
Theorem validation_epoch_end_fixed
    (self : AnomalyModule) (outputs : list (gmap string value)) :
  adaptive_threshold self = false ->
  threshold (validation_epoch_end outputs self).1 = threshold self.
Proof.
  intros Had.
  destruct (validation_epoch_end_cases outputs self) as [(H & _)|(H & _)].
  - exact H.
  - congruence.
Qed.

(** C7. The threshold is one scalar, assigned at most once by a validation
    epoch and only in adaptive mode: construction leaves a one-element
    threshold that was never reassigned; [validation_epoch_end] keeps the
    threshold a one-element tensor, assigns it at most once, changes it only
    by such an assignment, and assigns nothing when adaptive mode is off;
    [test_epoch_end] neither changes nor assigns the threshold, in either
    mode. *)
Theorem threshold_scalar_updated_once :
  (forall task adaptive default_threshold m,
     __init__ task adaptive default_threshold = Ok m ->
     threshold m = tensor_of_scalar default_threshold /\ threshold_updates m = 0) /\
  (forall self outputs,
     let self' := (validation_epoch_end outputs self).1 in
     (single_scalar (threshold self) -> single_scalar (threshold self')) /\
     threshold_updates self' <= threshold_updates self + 1 /\
     (threshold_updates self' = threshold_updates self -> threshold self' = threshold self) /\
     (adaptive_threshold self = false -> threshold_updates self' = threshold_updates self)) /\
  (forall self outputs,
     let self' := (test_epoch_end outputs self).1 in
     threshold self' = threshold self /\ threshold_updates self' = threshold_updates self).
Proof.
  split; [|split].
  - intros task adaptive d m. unfold __init__.
    destruct (String.eqb task "classification").
    + intros [= <-]. by split.
    + destruct (String.eqb task "segmentation"); [|discriminate].
      intros [= <-]. by split.
  - intros self outputs self'.
    pose proof (validation_epoch_end_cases outputs self) as H.
    cbv zeta in H. fold self' in H.
    destruct H as [(H1 & H2 & H3 & H4)|(Had & (t & Ht) & Hu)].
    + repeat split.
      * by rewrite H1.
      * lia.
      * done.
      * done.
    + repeat split.
      * intros _. by exists t.
      * lia.
      * lia.
      * congruence.
  - intros self outputs self'.
    destruct (keeps_test_epoch_end outputs self) as (H1 & H2 & H3 & H4). by split.
Qed.

End Epochs.

(** ** Construction *)

Section Construction.
Context {D : Domain} {C : Collaborators D}.

(** C5. Construction with a task string other than "classification" and
    "segmentation" raises NotImplementedError, so it never yields a module. *)
Theorem init_unsupported_task (task : string) (adaptive : bool) (default_threshold : scalar) :
  task <> "classification" ->
  task <> "segmentation" ->
  (exists msg, __init__ task adaptive default_threshold = Raise (NotImplementedError msg)) /\
  (forall m, __init__ task adaptive default_threshold <> Ok m).
Proof.
  intros Hc Hs. unfold __init__.
  apply String.eqb_neq in Hc, Hs. rewrite Hc, Hs.
  split; [by eexists | discriminate].
Qed.

(** C6. Construction with task "classification" yields a module whose
    aggregator is a ClassificationResults, and with task "segmentation" one
    whose aggregator is a SegmentationResults. *)
Theorem init_selects_results (adaptive : bool) (default_threshold : scalar) :
  (exists m, __init__ "classification" adaptive default_threshold = Ok m /\
             results_class (results m) = ClassificationResults /\
             results m = mk_results ClassificationResults) /\
  (exists m, __init__ "segmentation" adaptive default_threshold = Ok m /\
             results_class (results m) = SegmentationResults /\
             results m = mk_results SegmentationResults).
Proof. split; eexists; (split; [reflexivity|]); by split. Qed.

End Construction.

(** ** Rows of a tensor and their maxima *)

Section Rows.
Context {D : Domain}.

Lemma rows_length (n m : nat) (l : list scalar) : length (rows n m l) = n.
Proof. revert l. induction n as [|n IH]; intros l; simpl; [done|]. by rewrite IH. Qed.

Lemma rows_lookup (n m : nat) (l : list scalar) (i : nat) :
  i < n -> rows n m l !! i = Some (take m (drop (i * m) l)).
Proof.
  revert l i. induction n as [|n IH]; intros l i Hi; [lia|].
  destruct i as [|i]; simpl; [done|].
  rewrite IH by lia. by rewrite drop_drop.
Qed.

Lemma rows_nonempty (n m : nat) (l : list scalar) :
  length l = n * m -> 0 < m -> Forall (fun r => r <> []) (rows n m l).
Proof.
  intros Hl Hm. apply Forall_lookup. intros i r Hr.
  assert (i < n) as Hi.
  { apply lookup_lt_Some in Hr. by rewrite rows_length in Hr. }
  rewrite rows_lookup in Hr by done. injection Hr as <-.
  intros Hnil. apply (f_equal length) in Hnil.
  rewrite length_take, length_drop in Hnil. simpl in Hnil. nia.
Qed.

Lemma max_axis1_ok (rs : list (list scalar)) :
  Forall (fun r => r <> []) rs ->
  exists s, max_axis1 rs = Ok s /\ length s = length rs /\
            forall i r, rs !! i = Some r -> exists x, s !! i = Some x /\ row_max r = Ok x.
Proof.
  induction 1 as [|r rs Hr _ (s & Hs & Hlen & Hlook)]; simpl.
  - exists []. repeat split. intros i r. by rewrite lookup_nil.
  - destruct r as [|x xs]; [done|].
    rewrite Hs. exists (foldl smax x xs :: s). split; [done|]. split; [simpl; by rewrite Hlen|].
    intros [|i] r'; simpl.
    + intros [= <-]. by eexists.
    + apply Hlook.
Qed.

Lemma foldl_smax_is_max `{!DomainOrder D} (x : scalar) (xs : list scalar) :
  is_max_of (foldl smax x xs) (x :: xs).
Proof.
  revert x. induction xs as [|y xs IH]; intros x; simpl.
  - split; [apply list_elem_of_here|].
    intros z Hz. apply list_elem_of_singleton in Hz as ->. apply sge_refl.
  - destruct (IH (smax x y)) as [Hin Hub]. split.
    + apply elem_of_cons in Hin as [Heq|Hin].
      * rewrite Heq. destruct (smax_cases x y) as [-> | ->].
        -- apply list_elem_of_here.
        -- apply list_elem_of_further, list_elem_of_here.
      * by do 2 apply list_elem_of_further.
    + intros z Hz.
      assert (sge (foldl smax (smax x y) xs) (smax x y) = true) as Htop.
      { apply Hub, list_elem_of_here. }
      apply elem_of_cons in Hz as [->|Hz].
      { eapply sge_trans; [exact Htop | apply smax_ge_l]. }
      apply elem_of_cons in Hz as [->|Hz].
      { eapply sge_trans; [exact Htop | apply smax_ge_r]. }
      by apply Hub, list_elem_of_further.
Qed.

(** The scores [max_over_maps] derives from a tensor with at least one
    sample and at least one element per sample. *)
Lemma max_over_maps_ok (t : tensor) (n : nat) (rest : list nat) :
  tensor_wf t -> shape t = n :: rest -> 0 < n -> 0 < numel rest ->
  exists s, max_over_maps (VTensor t) = Ok (VTensor (Tensor [n] s)) /\
            length s = n /\
            forall i, i < n ->
              exists x, s !! i = Some x /\ row_max (sample (numel rest) i t) = Ok x.
Proof.
  intros Hwf Hsh Hn Hm. unfold tensor_wf in Hwf. rewrite Hsh in Hwf. simpl in Hwf.
  destruct (max_axis1_ok (rows n (numel rest) (data t))) as (s & Hs & Hlen & Hlook).
  { by apply rows_nonempty. }
  rewrite rows_length in Hlen.
  exists s. split; [|split; [done|]].
  - unfold max_over_maps, reshape_batch, reshape_rows. rewrite Hsh.
    destruct (Nat.eqb_spec n 0) as [->|_]; [lia|]. simpl.
    rewrite Hs. simpl. by rewrite Hlen.
  - intros i Hi. apply Hlook. by apply rows_lookup.
Qed.

End Rows.

(** ** Post-processing of a batch of outputs *)

Section PostProcess.
Context {D : Domain} {C : Collaborators D}.

Lemma contains_Some (k : string) (d : gmap string value) (v : value) :
  d !! k = Some v -> contains k d = true.
Proof. unfold contains. by intros ->. Qed.

Lemma contains_None (k : string) (d : gmap string value) :
  d !! k = None -> contains k d = false.
Proof. unfold contains. by intros ->. Qed.

Lemma getitem_Some (k : string) (d : gmap string value) (v : value) :
  d !! k = Some v -> getitem d k = Ok v.
Proof. unfold getitem. by intros ->. Qed.

Lemma scores_labels_distinct : "pred_scores" <> "pred_labels".
Proof. discriminate. Qed.

(** The two shapes of a call: the dictionary after the first statement is the
    one given or the one given with scores added, and the call leaves that
    dictionary or puts labels into it. *)
Lemma post_process_cases (self : AnomalyModule) (outputs : gmap string value) (b : bool) :
  exists outputs1,
    (outputs1 = outputs \/
     (outputs !! "pred_scores" = None /\ exists v, outputs1 = <["pred_scores" := v]> outputs)) /\
    ((_post_process self outputs b).1 = outputs1 \/
     (b = true /\ exists l, _post_process self outputs b = (<["pred_labels" := l]> outputs1, Ok ()))).
Proof.
  unfold _post_process.
  destruct (negb (contains "pred_scores" outputs) && contains "anomaly_maps" outputs) eqn:Hc.
  - apply andb_true_iff in Hc as [Hps _]. apply negb_true_iff in Hps.
    assert (outputs !! "pred_scores" = None) as Hnone.
    { unfold contains in Hps. by destruct (outputs !! "pred_scores"). }
    destruct (getitem outputs "anomaly_maps") as [maps|e];
      [|exists outputs; split; [by left | by left]].
    cbn [mbind result_bind].
    destruct (max_over_maps maps) as [v|e];
      [|exists outputs; split; [by left | by left]].
    cbn [mbind result_bind mret result_ret].
    exists (<["pred_scores" := v]> outputs). split; [right; eauto|].
    destruct b; [|by left].
    destruct (_ ≫= _) as [l|e]; [right; eauto | by left].
  - exists outputs. split; [by left|].
    destruct b; [|by left].
    destruct (_ ≫= _) as [l|e]; [right; eauto | by left].
Qed.

(** C4. When the batch has no predicted scores but has anomaly maps (a tensor
    with at least one sample and at least one element per sample),
    [_post_process] stores under the predicted-scores key one score per
    sample, the maximum over the elements of that sample's map; it returns
    normally unless labels are asked for and the threshold is not a single
    scalar. *)
Theorem post_process_scores_from_maps `{!DomainOrder D}
    (self : AnomalyModule) (outputs : gmap string value) (b : bool)
    (t : tensor) (n : nat) (rest : list nat) :
  outputs !! "pred_scores" = None ->
  outputs !! "anomaly_maps" = Some (VTensor t) ->
  tensor_wf t -> shape t = n :: rest -> 0 < n -> 0 < numel rest ->
  exists s,
    (_post_process self outputs b).1 !! "pred_scores" = Some (VTensor (Tensor [n] s)) /\
    length s = n /\
    (forall i, i < n -> exists x, s !! i = Some x /\ is_max_of x (sample (numel rest) i t)) /\
    (b = false -> _post_process self outputs b
                  = (<["pred_scores" := VTensor (Tensor [n] s)]> outputs, Ok ())) /\
    (single_scalar (threshold self) -> (_post_process self outputs b).2 = Ok ()).
Proof.
  intros Hps Ham Hwf Hsh Hn Hm.
  destruct (max_over_maps_ok t n rest Hwf Hsh Hn Hm) as (s & Hs & Hlen & Hmax).
  exists s.
  assert (forall i, i < n ->
            exists x, s !! i = Some x /\ is_max_of x (sample (numel rest) i t)) as Hmax'.
  { intros i Hi. destruct (Hmax i Hi) as (x & Hx & Hrow). exists x. split; [done|].
    unfold row_max in Hrow. destruct (sample _ _ _) as [|y ys]; [done|].
    injection Hrow as <-. apply foldl_smax_is_max. }
  unfold _post_process.
  rewrite (contains_None _ _ Hps), (contains_Some _ _ _ Ham), (getitem_Some _ _ _ Ham).
  cbn [negb andb mbind result_bind]. rewrite Hs. cbn [mbind result_bind mret result_ret].
  destruct b.
  - rewrite (getitem_Some "pred_scores" _ (VTensor (Tensor [n] s)))
      by apply lookup_insert_eq.
    cbn [mbind result_bind].
    destruct (item (threshold self)) as [x|e] eqn:Hitem;
      cbn [mbind result_bind ge_scalar fst snd].
    + rewrite lookup_insert_ne by (symmetry; apply scores_labels_distinct).
      rewrite lookup_insert_eq. by repeat split.
    + rewrite lookup_insert_eq. repeat split; [done..|].
      intros (x & Hx). rewrite Hx in Hitem. discriminate.
  - cbn [fst snd]. rewrite lookup_insert_eq. by repeat split.
Qed.

Lemma ge_scalar_of_scores (v : value) (s : tensor) (x : scalar) :
  scores_of v = Some s ->
  ge_scalar v x = Ok (VMask (shape s) ((fun y => sge y x) <$> data s)).
Proof.
  destruct v as [t|sh bits|o]; cbn; [by intros [= <-] | | discriminate].
  intros [= <-]. cbn. by rewrite <- list_fmap_compose.
Qed.

Lemma ge_scalar_scores (v : value) (x : scalar) (l : value) :
  ge_scalar v x = Ok l ->
  exists s, scores_of v = Some s /\ l = VMask (shape s) ((fun y => sge y x) <$> data s).
Proof.
  destruct v as [t|sh bits|o]; cbn; [| |discriminate].
  - intros [= <-]. by exists t.
  - intros [= <-]. eexists. split; [reflexivity|]. cbn. by rewrite <- list_fmap_compose.
Qed.

Lemma labels_are_compared (x : scalar) (s : tensor) :
  labels_are x s ((fun y => sge y x) <$> data s).
Proof.
  split; [apply length_fmap|].
  intros i y Hy. exists (sge y x). by rewrite list_lookup_fmap, Hy.
Qed.

Lemma post_process_labelled (self : AnomalyModule) (outputs out : gmap string value) :
  _post_process self outputs true = (out, Ok ()) ->
  labelled_from (threshold self) outputs out.
Proof.
  unfold _post_process.
  destruct (negb (contains "pred_scores" outputs) && contains "anomaly_maps" outputs) eqn:Hc.
  - apply andb_true_iff in Hc as [Hps _]. apply negb_true_iff in Hps.
    assert (outputs !! "pred_scores" = None) as Hnone.
    { unfold contains in Hps. by destruct (outputs !! "pred_scores"). }
    unfold getitem at 1.
    destruct (outputs !! "anomaly_maps") as [maps|] eqn:Hmaps; [|discriminate].
    cbn [mbind result_bind].
    destruct (max_over_maps maps) as [v|e] eqn:Hv; [|discriminate].
    cbn [mbind result_bind mret result_ret].
    rewrite (getitem_Some "pred_scores" _ v) by apply lookup_insert_eq.
    cbn [mbind result_bind].
    destruct (item (threshold self)) as [x|e] eqn:Hx; cbn [mbind result_bind]; [|discriminate].
    destruct (ge_scalar v x) as [l|e] eqn:Hl; [|discriminate].
    intros [= <-]. destruct (ge_scalar_scores _ _ _ Hl) as (s & Hs & ->).
    exists v, s, x, ((fun y => sge y x) <$> data s).
    split; [right; eauto|]. split; [done|]. split; [done|].
    split; [done|apply labels_are_compared].
  - unfold getitem.
    destruct (outputs !! "pred_scores") as [v|] eqn:Hv; cbn [mbind result_bind]; [|discriminate].
    destruct (item (threshold self)) as [x|e] eqn:Hx; cbn [mbind result_bind]; [|discriminate].
    destruct (ge_scalar v x) as [l|e] eqn:Hl; [|discriminate].
    intros [= <-]. destruct (ge_scalar_scores _ _ _ Hl) as (s & Hs & ->).
    exists v, s, x, ((fun y => sge y x) <$> data s).
    split; [by left|]. split; [done|]. split; [done|].
    split; [by rewrite (insert_id outputs "pred_scores" v)|apply labels_are_compared].
Qed.

(** C3. Whenever labels are predicted, they are the scores of the batch
    compared with the current threshold: after a call of [_post_process] with
    [predict_labels=True] that returns, the batch holds under the
    predicted-scores key the scores it was given (or, if it had none, the
    ones derived from its anomaly maps) and under the predicted-labels key a
    boolean tensor of the same shape in which the label of each sample is
    true exactly when that score is [>=] the threshold of the module; after a
    [predict_step] that returns, the same holds of the batch that
    [validation_step] returned and the threshold the module then has; and on
    a batch with scores and a module with a one-element threshold the call
    returns that batch with exactly these labels. *)
Theorem predicted_labels_ge_threshold :
  (forall self outputs out,
     _post_process self outputs true = (out, Ok ()) ->
     labelled_from (threshold self) outputs out) /\
  (forall b batch_idx dataloader_idx self self' out,
     predict_step b batch_idx dataloader_idx self = (self', Ok out) ->
     exists outputs,
       validation_step b batch_idx self = (self', Ok outputs) /\
       labelled_from (threshold self') outputs out) /\
  (forall self outputs v s x,
     outputs !! "pred_scores" = Some v ->
     scores_of v = Some s ->
     item (threshold self) = Ok x ->
     _post_process self outputs true
     = (<["pred_labels" := VMask (shape s) ((fun y => sge y x) <$> data s)]> outputs, Ok ())).
Proof.
  split; [exact post_process_labelled|split].
  - intros b i dl self self' out. unfold predict_step. rewrite run_bind.
    destruct (validation_step b i self) as [self1 [outputs|e]]; [|discriminate].
    unfold post_processed.
    destruct (_post_process self1 outputs true) as [out' [[]|e]] eqn:Hpp; [|discriminate].
    intros [= <- <-]. exists outputs. split; [done|].
    by apply (post_process_labelled self1 outputs).
  - intros self outputs v s x Hv Hs Hx. unfold _post_process.
    rewrite (contains_Some _ _ _ Hv). cbn [negb andb].
    rewrite (getitem_Some _ _ _ Hv), Hx. cbn [mbind result_bind].
    by rewrite (ge_scalar_of_scores v s x Hs).
Qed.

(** C8. [_post_process] touches the predicted-scores and predicted-labels keys
    only: every other key holds afterwards what it held before, also when the
    call raises; scores that are present stay as they are; and without
    scores, without anomaly maps and without label prediction the call
    returns the dictionary unchanged. *)
Theorem post_process_frame
    (self : AnomalyModule) (outputs : gmap string value) (b : bool) :
  (forall k, k <> "pred_scores" -> k <> "pred_labels" ->
     (_post_process self outputs b).1 !! k = outputs !! k) /\
  (forall v, outputs !! "pred_scores" = Some v ->
     (_post_process self outputs b).1 !! "pred_scores" = Some v) /\
  (outputs !! "pred_scores" = None -> outputs !! "anomaly_maps" = None -> b = false ->
     _post_process self outputs b = (outputs, Ok ())).
Proof.
  destruct (post_process_cases self outputs b) as (outputs1 & H1 & H2).
  split; [|split].
  - intros k Hks Hkl.
    assert (outputs1 !! k = outputs !! k) as Hk1.
    { destruct H1 as [->|(_ & v & ->)]; [done|]. by rewrite lookup_insert_ne. }
    destruct H2 as [->|(_ & l & ->)]; [done|].
    cbn [fst]. by rewrite lookup_insert_ne.
  - intros v Hv.
    assert (outputs1 = outputs) as ->.
    { destruct H1 as [->|(Hnone & _)]; [done | congruence]. }
    destruct H2 as [->|(_ & l & ->)]; [done|].
    cbn [fst]. rewrite lookup_insert_ne by (symmetry; apply scores_labels_distinct). done.
  - intros Hps Ham ->. unfold _post_process.
    by rewrite (contains_None _ _ Ham), andb_false_r.
Qed.

(** C9. [test_step] is [validation_step] on the same batch and index, with
    nothing done to its result; [validation_step_end] and [test_step_end] are
    the same hook, [_post_process] without label prediction, which leaves the
    predicted-labels key as it was. *)
Theorem test_step_is_validation_step :
  (forall b batch_idx self, test_step b batch_idx self = validation_step b batch_idx self) /\
  (forall outputs self,
     validation_step_end outputs self = test_step_end outputs self /\
     test_step_end outputs self =
       match _post_process self outputs false with
       | (outputs', Ok _) => (self, Ok outputs')
       | (_, Raise e) => (self, Raise e)
       end /\
     (_post_process self outputs false).1 !! "pred_labels" = outputs !! "pred_labels").
Proof.
  split; [reflexivity|]. intros outputs self. split; [reflexivity|]. split; [reflexivity|].
  destruct (post_process_cases self outputs false) as (outputs1 & H1 & H2).
  destruct H2 as [->|(? & _)]; [|discriminate].
  destruct H1 as [->|(_ & v & ->)]; [done|].
  by rewrite lookup_insert_ne by apply scores_labels_distinct.
Qed.

(** The tensor operations raise no KeyError. *)
Lemma max_axis1_no_key_error (rs : list (list scalar)) (k : string) :
  max_axis1 rs <> Raise (KeyError k).
Proof.
  induction rs as [|r rs IH]; [discriminate|]. simpl.
  destruct r as [|y ys]; [discriminate|]. cbn [row_max mbind result_bind].
  destruct (max_axis1 rs); [discriminate|]. exact IH.
Qed.

Lemma max_axis1_bool_no_key_error (rs : list (list bool)) (k : string) :
  max_axis1_bool rs <> Raise (KeyError k).
Proof.
  induction rs as [|r rs IH]; [discriminate|]. simpl.
  destruct r as [|y ys]; [discriminate|]. cbn [row_max_bool mbind result_bind].
  destruct (max_axis1_bool rs); [discriminate|]. exact IH.
Qed.

Lemma max_over_maps_no_key_error (maps : value) (k : string) :
  max_over_maps maps <> Raise (KeyError k).
Proof.
  unfold max_over_maps, reshape_batch, reshape_rows.
  destruct maps as [t|sh bits|o]; [| |discriminate].
  - destruct (shape t) as [|n rest]; [discriminate|].
    destruct (n =? 0)%nat; [discriminate|]. cbn [mbind result_bind].
    pose proof (max_axis1_no_key_error (rows n (numel rest) (data t)) k) as H.
    destruct (max_axis1 _); cbn [mbind result_bind]; [discriminate|congruence].
  - destruct sh as [|n rest]; [discriminate|].
    destruct (n =? 0)%nat; [discriminate|]. cbn [mbind result_bind].
    pose proof (max_axis1_bool_no_key_error (rows n (numel rest) bits) k) as H.
    destruct (max_axis1_bool _); cbn [mbind result_bind]; [discriminate|congruence].
Qed.

Lemma labels_no_key_error (self : AnomalyModule) (v : value) (k : string) :
  (x ← item (threshold self); ge_scalar v x) <> Raise (KeyError k).
Proof.
  unfold item. destruct (data (threshold self)) as [|y [|? ?]]; [discriminate| |discriminate].
  cbn [mbind result_bind]. destruct v; discriminate.
Qed.

(** C10. Label prediction needs scores or maps: on a batch with neither key,
    [_post_process] with [predict_labels=True] raises KeyError for the
    predicted-scores key and leaves the batch as it was, and so does
    [predict_step] when [validation_step] returns such a batch; on a batch
    with at least one of the two keys it never raises a KeyError. *)
Theorem label_prediction_needs_scores :
  (forall self outputs,
     outputs !! "pred_scores" = None -> outputs !! "anomaly_maps" = None ->
     _post_process self outputs true = (outputs, Raise (KeyError "pred_scores"))) /\
  (forall b batch_idx dataloader_idx self self1 outputs,
     validation_step b batch_idx self = (self1, Ok outputs) ->
     outputs !! "pred_scores" = None -> outputs !! "anomaly_maps" = None ->
     predict_step b batch_idx dataloader_idx self = (self1, Raise (KeyError "pred_scores"))) /\
  (forall self outputs k,
     is_Some (outputs !! "pred_scores") \/ is_Some (outputs !! "anomaly_maps") ->
     (_post_process self outputs true).2 <> Raise (KeyError k)).
Proof.
  assert (forall self outputs,
     outputs !! "pred_scores" = None -> outputs !! "anomaly_maps" = None ->
     _post_process self outputs true = (outputs, Raise (KeyError "pred_scores"))) as Hraise.
  { intros self outputs Hps Ham. unfold _post_process.
    rewrite (contains_None _ _ Ham), andb_false_r.
    unfold getitem. rewrite Hps. reflexivity. }
  split; [exact Hraise|split].
  - intros b i dl self self1 outputs Hv Hps Ham.
    unfold predict_step. rewrite run_bind, Hv. unfold post_processed.
    by rewrite (Hraise self1 outputs Hps Ham).
  - intros self outputs k Hkeys. unfold _post_process.
    destruct (outputs !! "pred_scores") as [v|] eqn:Hps.
    + rewrite (contains_Some _ _ _ Hps). cbn [negb andb].
      rewrite (getitem_Some _ _ _ Hps). cbn [mbind result_bind].
      pose proof (labels_no_key_error self v k) as Hl.
      destruct (_ ≫= _) as [l|e]; cbn [snd]; congruence.
    + destruct Hkeys as [[? [=]]|[maps Ham]].
      rewrite (contains_None _ _ Hps), (contains_Some _ _ _ Ham). cbn [negb andb].
      rewrite (getitem_Some _ _ _ Ham). cbn [mbind result_bind].
      pose proof (max_over_maps_no_key_error maps k) as Hm.
      destruct (max_over_maps maps) as [v|e]; cbn [mbind result_bind mret result_ret];
        [|cbn [snd]; congruence].
      rewrite (getitem_Some "pred_scores" _ v) by apply lookup_insert_eq.
      cbn [mbind result_bind].
      pose proof (labels_no_key_error self v k) as Hl.
      destruct (_ ≫= _) as [l|e]; cbn [snd]; congruence.
Qed.

End PostProcess.

(** ** The hooks on concrete inputs *)

Section Concrete.
Import Example.

#[local] Instance ZDomainOrder : DomainOrder ZDomain.
Proof.
  split; simpl; intros.
  - rewrite Z.geb_leb. apply Z.leb_le. lia.
  - rewrite Z.geb_leb in *. apply Z.leb_le. apply Z.leb_le in H, H0. lia.
  - lia.
  - rewrite Z.geb_leb. apply Z.leb_le. lia.
  - rewrite Z.geb_leb. apply Z.leb_le. lia.
Qed.

(** Adaptive mode: the scores 2, 5, 8 are stored, the helper proposes 8, and
    the threshold 5 becomes 8, which single precision holds exactly. *)
Lemma validation_epoch_end_adaptive_witness :
  threshold (validation_epoch_end [scored] adaptive_module).1 = Tensor [1] [8%Z] /\
  item (threshold (validation_epoch_end [scored] adaptive_module).1) = Ok 8%Z /\
  (validation_epoch_end [scored] adaptive_module).2 = Ok ().
Proof.
  pose proof (validation_epoch_end_adaptive (D:=ZDomain) adaptive_module [scored]
                {| agg_labels := []; agg_scores := [2; 5; 8]%Z; agg_perf := [] |}
                8%Z 1%Z eq_refl eq_refl eq_refl) as (H1 & _ & H2 & H3).
  split; [exact H1|]. split; [exact (H2 eq_refl)|]. eapply H3. reflexivity.
Defined.

(** The threshold need not equal what the helper returned: on the scores 2,
    16777216, 16777217 the helper proposes 16777217 (2^24 + 1), and the
    threshold, a tensor of single precision, holds 16777216. *)
Lemma validation_epoch_end_adaptive_counterexample :
  adaptive_threshold adaptive_module = true /\
  store_outputs (results_class (results adaptive_module))
    (results_state (results adaptive_module)) [scored_wide]
    = ({| agg_labels := []; agg_scores := [2; 16777216; 16777217]%Z; agg_perf := [] |},
       Ok ()) /\
  compute_threshold_and_f1_score (D:=ZDomain) [] [2; 16777216; 16777217]%Z
    = Ok (16777217%Z, 1%Z) /\
  threshold (validation_epoch_end [scored_wide] adaptive_module).1
    = Tensor [1] [16777216%Z] /\
  threshold (validation_epoch_end [scored_wide] adaptive_module).1
    <> Tensor [1] [16777217%Z] /\
  item (threshold (validation_epoch_end [scored_wide] adaptive_module).1)
    <> Ok 16777217%Z.
Proof.
  split; [reflexivity|]. split; [reflexivity|]. split; [reflexivity|].
  split; [reflexivity|]. split; intros H.
  - apply (f_equal data) in H. vm_compute in H. discriminate H.
  - vm_compute in H. discriminate H.
Qed.

(** Fixed mode: the threshold stays 5. *)
Lemma validation_epoch_end_fixed_witness :
  threshold (validation_epoch_end [scored] fixed_module).1 = tensor_of_scalar 5%Z.
Proof. exact (validation_epoch_end_fixed (D:=ZDomain) fixed_module [scored] eq_refl). Defined.

(** Scores 2, 5, 8 against the threshold 5. *)
Lemma predicted_labels_ge_threshold_witness :
  labelled_from (tensor_of_scalar 5%Z) scored
    (<["pred_labels" := VMask [3] [false; true; true]]> scored) /\
  _post_process adaptive_module scored true
  = (<["pred_labels" := VMask [3] [false; true; true]]> scored, Ok ()).
Proof.
  destruct (predicted_labels_ge_threshold (D:=ZDomain)) as (H1 & _ & H3). split.
  - apply (H1 adaptive_module scored). reflexivity.
  - exact (H3 adaptive_module scored _ (Tensor (D:=ZDomain) [3] [2; 5; 8]%Z) 5%Z
             eq_refl eq_refl eq_refl).
Defined.

(** Two samples with maps [1 7 3 2] and [4 0 9 6]. *)
Lemma post_process_scores_from_maps_witness :
  exists s,
    (_post_process fixed_module mapped false).1 !! "pred_scores"
      = Some (VTensor (Tensor [2] s)) /\
    length s = 2 /\
    (forall i, i < 2 -> exists x, s !! i = Some x /\ is_max_of x (sample 4 i maps22)) /\
    (false = false -> _post_process fixed_module mapped false
                      = (<["pred_scores" := VTensor (Tensor [2] s)]> mapped, Ok ())) /\
    (single_scalar (threshold fixed_module) -> (_post_process fixed_module mapped false).2 = Ok ()).
Proof.
  apply (post_process_scores_from_maps (D:=ZDomain) fixed_module mapped false maps22 2 [2; 2]).
  - reflexivity.
  - reflexivity.
  - reflexivity.
  - reflexivity.
  - lia.
  - simpl. lia.
Defined.

Lemma init_unsupported_task_witness :
  (exists msg, __init__ "detection" true 5%Z = Raise (NotImplementedError msg)) /\
  (forall m, __init__ "detection" true 5%Z <> Ok m).
Proof.
  apply (init_unsupported_task (D:=ZDomain) "detection" true 5%Z); discriminate.
Defined.

(** The adaptive module keeps a one-element threshold through a validation
    epoch, and a fixed one assigns nothing. *)
Lemma threshold_scalar_updated_once_witness :
  single_scalar (threshold (validation_epoch_end [scored] adaptive_module).1) /\
  threshold_updates (validation_epoch_end [scored] fixed_module).1
    = threshold_updates fixed_module.
Proof.
  destruct (threshold_scalar_updated_once (D:=ZDomain)) as (_ & H2 & _). split.
  - apply (H2 adaptive_module [scored]). by exists 5%Z.
  - apply (H2 fixed_module [scored]). reflexivity.
Defined.

Lemma post_process_frame_witness :
  (_post_process adaptive_module mapped true).1 !! "anomaly_maps" = mapped !! "anomaly_maps" /\
  (_post_process adaptive_module scored true).1 !! "pred_scores"
    = Some (VTensor (Tensor [3] [2; 5; 8]%Z)) /\
  _post_process adaptive_module unscored false = (unscored, Ok ()).
Proof.
  split; [|split].
  - apply (post_process_frame (D:=ZDomain) adaptive_module mapped true); discriminate.
  - apply (post_process_frame (D:=ZDomain) adaptive_module scored true). reflexivity.
  - apply (post_process_frame (D:=ZDomain) adaptive_module unscored false); reflexivity.
Defined.

Lemma label_prediction_needs_scores_witness :
  _post_process adaptive_module unscored true = (unscored, Raise (KeyError "pred_scores")) /\
  (_post_process adaptive_module mapped true).2 <> Raise (KeyError "pred_scores").
Proof.
  destruct (label_prediction_needs_scores (D:=ZDomain)) as (H1 & _ & H3). split.
  - apply (H1 adaptive_module unscored); reflexivity.
  - apply (H3 adaptive_module mapped "pred_scores"). right. by eexists.
Defined.

(** Maps without elements have no maximum: the call raises and adds no
    scores. *)
Example post_process_empty_maps :
  _post_process fixed_module {[ "anomaly_maps" := VTensor (Tensor [2; 0] []) ]} false
  = ({[ "anomaly_maps" := VTensor (Tensor [2; 0] []) ]}, Raise IndexError).
Proof. reflexivity. Qed.

(** Boolean maps give boolean scores, which are compared as 0 and 1. *)
Example post_process_boolean_maps :
  _post_process (D:=ZDomain) fixed_module
    {[ "anomaly_maps" := VMask [2; 2] [false; true; false; false] ]} true
  = (<["pred_labels" := VMask [2] [false; false]]>
       (<["pred_scores" := VMask [2] [true; false]]>
          {[ "anomaly_maps" := VMask [2; 2] [false; true; false; false] ]}), Ok ()).
Proof. reflexivity. Qed.

(** [predict_step] on a batch of two 2x2 maps: scores 7 and 9, both at least
    the threshold 5. *)
Example predict_step_maps :
  (predict_step ([2; 2; 2], [1; 7; 3; 2; 4; 0; 9; 6]%Z) 0 0 adaptive_module).2
  = Ok (<["pred_labels" := VMask [2] [true; true]]>
          (<["pred_scores" := VTensor (Tensor [2] [7; 9]%Z)]> mapped)).
Proof. reflexivity. Qed.

End Concrete.

(** ** Further properties of the epoch hooks *)

Section EpochEffects.
Context {D : Domain} {C : Collaborators D}.

Lemma add_trace_nil (self : AnomalyModule) : add_trace [] self = self.
Proof. destruct self. unfold add_trace. simpl. by rewrite app_nil_r. Qed.

Lemma add_trace_app (evs1 evs2 : list event) (self : AnomalyModule) :
  add_trace evs2 (add_trace evs1 self) = add_trace (evs1 ++ evs2) self.
Proof. unfold add_trace. simpl. by rewrite app_assoc. Qed.

Lemma log_items_run (items : list (string * metric)) (self : AnomalyModule) :
  log_items items self = (add_trace (log_events items) self, Ok ()).
Proof.
  revert self. induction items as [|[name v] rest IH]; intros self; simpl.
  - by rewrite add_trace_nil.
  - rewrite run_bind.
    change (log name v self) with (add_trace [EvLog name v] self, Ok ()).
    cbv beta iota. rewrite IH, add_trace_app. reflexivity.
Qed.

Lemma log_metrics_run (self : AnomalyModule) :
  _log_metrics self
  = (add_trace (log_events (performance (results_state (results self)))) self, Ok ()).
Proof. unfold _log_metrics. rewrite run_get. apply log_items_run. Qed.

(** X1. [_log_metrics] calls [self.log] once for each entry of the performance
    mapping of the aggregator, in the order of the mapping, changes nothing
    else and returns. *)
Theorem log_metrics_logs_performance (self : AnomalyModule) :
  _log_metrics self
  = (add_trace (log_events (performance (results_state (results self)))) self, Ok ()).
Proof.
  unfold _log_metrics. rewrite run_get.
  generalize (performance (results_state (results self))). intros items.
  revert self. induction items as [|[name v] rest IH]; intros self; simpl.
  - by rewrite add_trace_nil.
  - rewrite run_bind.
    change (log name v self) with (add_trace [EvLog name v] self, Ok ()).
    cbv beta iota. rewrite IH, add_trace_app. reflexivity.
Qed.

(** The end of both epoch hooks, run on a threshold that holds [x]. *)
Lemma evaluate_and_log_run (self : AnomalyModule) (x : scalar) :
  item (threshold self) = Ok x ->
  ((fun self => (self, item (threshold self))) ≫= fun x =>
     results_evaluate x ≫= fun _ => _log_metrics) self
  = match evaluate (results_class (results self)) (results_state (results self)) x with
    | (st2, Ok _) =>
        (add_trace (log_events (performance st2)) (set_results_state st2 self), Ok ())
    | (st2, Raise e) => (set_results_state st2 self, Raise e)
    end.
Proof.
  intros Hx. rewrite run_bind. cbv beta iota. rewrite Hx. cbv beta iota.
  rewrite run_bind. unfold results_evaluate.
  destruct (evaluate _ _ x) as [st2 [[]|e]]; cbv beta iota zeta; [|done].
  apply log_metrics_run.
Qed.

(** X2. [test_epoch_end], when the aggregator accepts the outputs and evaluates:
    the outputs are stored, the aggregator is evaluated at the current
    threshold, and the performance it then reports is logged entry by
    entry; the threshold is not touched. *)
Theorem test_epoch_end_evaluates_and_logs
    (self : AnomalyModule) (outputs : list (gmap string value))
    (st1 st2 : rstate) (x : scalar) :
  store_outputs (results_class (results self)) (results_state (results self)) outputs
    = (st1, Ok ()) ->
  item (threshold self) = Ok x ->
  evaluate (results_class (results self)) st1 x = (st2, Ok ()) ->
  test_epoch_end outputs self
  = (add_trace (log_events (performance st2)) (set_results_state st2 self), Ok ()).
Proof.
  intros Hst Hx Hev. unfold test_epoch_end. rewrite run_bind.
  unfold results_store_outputs. rewrite Hst. cbv beta iota zeta.
  rewrite (evaluate_and_log_run _ x) by exact Hx.
  change (results_class (results (set_results_state st1 self)))
    with (results_class (results self)).
  change (results_state (results (set_results_state st1 self))) with st1.
  rewrite Hev. reflexivity.
Qed.

(** X3. [test_epoch_end] passes on what a collaborator raises and logs nothing
    then: when storing the outputs raises, the aggregator is left as the
    failed call left it; when the evaluation raises, likewise.  The
    threshold is the same in both cases. *)
Theorem test_epoch_end_propagates
    (self : AnomalyModule) (outputs : list (gmap string value)) :
  (forall st1 e,
     store_outputs (results_class (results self)) (results_state (results self)) outputs
       = (st1, Raise e) ->
     test_epoch_end outputs self = (set_results_state st1 self, Raise e)) /\
  (forall st1 st2 x e,
     store_outputs (results_class (results self)) (results_state (results self)) outputs
       = (st1, Ok ()) ->
     item (threshold self) = Ok x ->
     evaluate (results_class (results self)) st1 x = (st2, Raise e) ->
     test_epoch_end outputs self = (set_results_state st2 self, Raise e)).
Proof.
  split.
  - intros st1 e Hst. unfold test_epoch_end. rewrite run_bind.
    unfold results_store_outputs. by rewrite Hst.
  - intros st1 st2 x e Hst Hx Hev. unfold test_epoch_end. rewrite run_bind.
    unfold results_store_outputs. rewrite Hst. cbv beta iota zeta.
    rewrite (evaluate_and_log_run _ x) by exact Hx.
    change (results_class (results (set_results_state st1 self)))
      with (results_class (results self)).
    change (results_state (results (set_results_state st1 self))) with st1.
    rewrite Hev. reflexivity.
Qed.

(** The adaptive branch of [validation_epoch_end] up to the assignment. *)
Lemma validation_epoch_end_adaptive_run
    (self : AnomalyModule) (outputs : list (gmap string value))
    (st1 : rstate) (t f1 : scalar) :
  adaptive_threshold self = true ->
  store_outputs (results_class (results self)) (results_state (results self)) outputs
    = (st1, Ok ()) ->
  compute_threshold_and_f1_score (true_labels st1) (pred_scores st1) = Ok (t, f1) ->
  validation_epoch_end outputs self
  = ((fun self => (self, item (threshold self))) ≫= fun x =>
       results_evaluate x ≫= fun _ => _log_metrics)
      (set_threshold (tensor_of_scalar t) (set_results_state st1 self)).1.
Proof.
  intros Had Hst Hc.
  unfold validation_epoch_end. rewrite run_bind.
  unfold results_store_outputs at 1. rewrite Hst. cbv beta iota zeta.
  rewrite run_get. change (adaptive_threshold (set_results_state st1 self))
    with (adaptive_threshold self). rewrite Had.
  rewrite (run_bind (_ ≫= _)), run_get, run_lift.
  change (results_state (results (set_results_state st1 self))) with st1.
  rewrite Hc. rewrite set_threshold_run. reflexivity.
Qed.

(** X4. [validation_epoch_end] in adaptive mode, when every collaborator returns:
    the aggregator is evaluated at the threshold the helper has just
    returned, rounded to single precision as the threshold tensor holds it,
    not at the threshold before; the assignment of the threshold comes first
    among the effects, then one log call per entry of the performance the
    evaluation produced. *)
Theorem validation_epoch_end_adaptive_effects
    (self : AnomalyModule) (outputs : list (gmap string value))
    (st1 st2 : rstate) (t f1 : scalar) :
  adaptive_threshold self = true ->
  store_outputs (results_class (results self)) (results_state (results self)) outputs
    = (st1, Ok ()) ->
  compute_threshold_and_f1_score (true_labels st1) (pred_scores st1) = Ok (t, f1) ->
  evaluate (results_class (results self)) st1 (to_float32 t) = (st2, Ok ()) ->
  exists self',
    validation_epoch_end outputs self = (self', Ok ()) /\
    results_state (results self') = st2 /\
    threshold self' = Tensor [1] [to_float32 t] /\
    trace self' = (trace self ++ EvSetThreshold (Tensor [1] [to_float32 t])
                                  :: log_events (performance st2))%list.
Proof.
  intros Had Hst Hc Hev.
  rewrite (validation_epoch_end_adaptive_run self outputs st1 t f1 Had Hst Hc).
  rewrite (evaluate_and_log_run _ (to_float32 t)) by reflexivity.
  change (evaluate _ _ (to_float32 t))
    with (evaluate (results_class (results self)) st1 (to_float32 t)).
  rewrite Hev. eexists. split; [reflexivity|]. split; [reflexivity|]. split; [reflexivity|].
  simpl. by rewrite <- app_assoc.
Qed.

(** X5. [validation_epoch_end] in adaptive mode when the threshold helper raises:
    the hook raises the same, the threshold keeps its value, the aggregator
    holds the stored outputs but is not evaluated, and nothing is logged. *)
Theorem validation_epoch_end_helper_raises
    (self : AnomalyModule) (outputs : list (gmap string value))
    (st1 : rstate) (e : exn) :
  adaptive_threshold self = true ->
  store_outputs (results_class (results self)) (results_state (results self)) outputs
    = (st1, Ok ()) ->
  compute_threshold_and_f1_score (true_labels st1) (pred_scores st1) = Raise e ->
  validation_epoch_end outputs self = (set_results_state st1 self, Raise e).
Proof.
  intros Had Hst Hc.
  unfold validation_epoch_end. rewrite run_bind.
  unfold results_store_outputs at 1. rewrite Hst. cbv beta iota zeta.
  rewrite run_get. change (adaptive_threshold (set_results_state st1 self))
    with (adaptive_threshold self). rewrite Had.
  rewrite (run_bind (_ ≫= _)), run_get, run_lift.
  change (results_state (results (set_results_state st1 self))) with st1.
  by rewrite Hc.
Qed.

(** X6. With adaptive mode off, [validation_epoch_end] is [test_epoch_end]: the
    same final module and the same outcome on every input. *)
Theorem validation_epoch_end_fixed_is_test_epoch_end
    (self : AnomalyModule) (outputs : list (gmap string value)) :
  adaptive_threshold self = false ->
  validation_epoch_end outputs self = test_epoch_end outputs self.
Proof.
  intros Had. unfold validation_epoch_end, test_epoch_end. rewrite !run_bind.
  pose proof (keeps_store_outputs outputs self) as (_ & Had1 & _).
  destruct (results_store_outputs outputs self) as [self1 [[]|e]]; [|done].
  simpl in Had1. rewrite run_get, Had1, Had. by rewrite run_bind.
Qed.

End EpochEffects.

(** ** What the hooks never change *)

Section Configuration.
Context {D : Domain} {C : Collaborators D}.

Lemma same_config_refl (self : AnomalyModule) : same_config self self.
Proof. by repeat split. Qed.

Lemma same_config_trans (s1 s2 s3 : AnomalyModule) :
  same_config s1 s2 -> same_config s2 s3 -> same_config s1 s3.
Proof. intros (H1 & H2 & H3) (K1 & K2 & K3). repeat split; congruence. Qed.

Lemma config_bind {A B} (c : M A) (f : A -> M B) :
  keeps_config c -> (forall a, keeps_config (f a)) -> keeps_config (c ≫= f).
Proof.
  intros Hc Hf self. rewrite run_bind.
  specialize (Hc self). destruct (c self) as [self1 [a|e]]; simpl in *; [|done].
  eapply same_config_trans; [exact Hc | apply Hf].
Qed.

Lemma config_pure {A} (f : AnomalyModule -> result A) :
  keeps_config (fun self => (self, f self)).
Proof. intros self. apply same_config_refl. Qed.

Lemma config_store_outputs (outputs : list (gmap string value)) :
  keeps_config (results_store_outputs outputs).
Proof.
  intros self. unfold results_store_outputs.
  destruct (store_outputs _ _ _) as [st res]. by repeat split.
Qed.

Lemma config_evaluate (x : scalar) : keeps_config (results_evaluate x).
Proof.
  intros self. unfold results_evaluate.
  destruct (evaluate _ _ _) as [st res]. by repeat split.
Qed.

Lemma config_set_threshold (t : tensor) : keeps_config (set_threshold t).
Proof. intros self. by repeat split. Qed.

Lemma config_log_metrics : keeps_config _log_metrics.
Proof. intros self. rewrite log_metrics_run. by repeat split. Qed.

Lemma config_evaluate_and_log :
  keeps_config
    ((fun self => (self, item (threshold self))) ≫= fun x =>
       results_evaluate x ≫= fun _ => _log_metrics).
Proof.
  apply config_bind; [apply config_pure|]. intros x.
  apply config_bind; [apply config_evaluate|]. intros _.
  apply config_log_metrics.
Qed.

(** X7. Neither epoch hook changes what construction fixed, whether it returns
    or raises: the saved hyperparameters, the adaptive-threshold flag and the
    class of the aggregator are afterwards what they were. *)
Theorem epoch_hooks_keep_configuration
    (self : AnomalyModule) (outputs : list (gmap string value)) :
  same_config self (validation_epoch_end outputs self).1 /\
  same_config self (test_epoch_end outputs self).1.
Proof.
  split.
  - revert self. change (keeps_config (validation_epoch_end outputs)).
    unfold validation_epoch_end.
    apply config_bind; [apply config_store_outputs|]. intros _.
    apply config_bind; [apply (config_pure (fun s => Ok (adaptive_threshold s)))|].
    intros adaptive. apply config_bind; [|intros _; apply config_evaluate_and_log].
    destruct adaptive; [|apply (config_pure (fun _ => Ok ()))].
    apply config_bind; [apply (config_pure (fun s => Ok (results s)))|]. intros r.
    apply config_bind; [apply (config_pure (fun _ => _))|]. intros tf.
    apply config_set_threshold.
  - revert self. change (keeps_config (test_epoch_end outputs)).
    unfold test_epoch_end.
    apply config_bind; [apply config_store_outputs|]. intros _.
    apply config_evaluate_and_log.
Qed.

End Configuration.

(** ** Further properties of post-processing *)

Section PostProcessEffects.
Context {D : Domain} {C : Collaborators D}.

(** A call on a batch that has scores. *)
Lemma post_process_with_scores
    (self : AnomalyModule) (outputs : gmap string value) (b : bool) (v : value) :
  outputs !! "pred_scores" = Some v ->
  _post_process self outputs b =
  if b then
    match x ← item (threshold self); ge_scalar v x with
    | Ok l => (<["pred_labels" := l]> outputs, Ok ())
    | Raise e => (outputs, Raise e)
    end
  else (outputs, Ok ()).
Proof.
  intros Hv. unfold _post_process.
  rewrite (contains_Some _ _ _ Hv). cbn [negb andb].
  by rewrite (getitem_Some _ _ _ Hv).
Qed.

(** A call that returns: its first statement returns too, and gives the batch
    itself or the batch with scores added; labels, if asked for, come from
    the scores that are then present. *)
Lemma post_process_ok_inv
    (self : AnomalyModule) (outputs out : gmap string value) (b : bool) :
  _post_process self outputs b = (out, Ok ()) ->
  exists o1,
    _post_process self outputs false = (o1, Ok ()) /\
    (o1 = outputs \/ exists v, o1 = <["pred_scores" := v]> outputs) /\
    (b = false /\ out = o1 \/
     b = true /\ exists v x l,
       o1 !! "pred_scores" = Some v /\ item (threshold self) = Ok x /\
       ge_scalar v x = Ok l /\ out = <["pred_labels" := l]> o1).
Proof.
  unfold _post_process.
  set (scored := if negb _ && _ then _ else _).
  assert (forall o1, scored = Ok o1 ->
            o1 = outputs \/ exists v, o1 = <["pred_scores" := v]> outputs) as Hshape.
  { subst scored. intros o1.
    destruct (negb _ && _); [|intros [= <-]; by left].
    destruct (getitem outputs "anomaly_maps") as [maps|e]; [|discriminate].
    cbn [mbind result_bind].
    destruct (max_over_maps maps) as [v|e]; [|discriminate].
    intros [= <-]. right. by eexists. }
  destruct scored as [o1|e]; [|discriminate].
  intros H. exists o1. split; [done|]. split; [by apply Hshape|].
  destruct b; [right|left; by injection H as <-].
  split; [done|]. unfold getitem in H.
  destruct (o1 !! "pred_scores") as [v|]; cbn [mbind result_bind] in H; [|discriminate].
  destruct (item (threshold self)) as [x|e]; cbn [mbind result_bind] in H; [|discriminate].
  destruct (ge_scalar v x) as [l|e] eqn:Hl; [|discriminate].
  injection H as <-. by exists v, x, l.
Qed.

(** X8. [_post_process] is idempotent: on the batch a call has returned, a second
    call with the same arguments returns that batch unchanged. *)
Theorem post_process_idempotent
    (self : AnomalyModule) (outputs out : gmap string value) (b : bool) :
  _post_process self outputs b = (out, Ok ()) ->
  _post_process self out b = (out, Ok ()).
Proof.
  intros H. destruct (post_process_ok_inv _ _ _ _ H) as (o1 & H1 & Hshape & Hb).
  destruct Hb as [(-> & ->)|(-> & v & x & l & Hv & Hx & Hl & ->)].
  - destruct Hshape as [->|(v & ->)]; [done|].
    by rewrite (post_process_with_scores _ _ _ v) by apply lookup_insert_eq.
  - rewrite (post_process_with_scores _ _ _ v).
    + rewrite Hx. cbn [mbind result_bind]. rewrite Hl. by rewrite insert_insert_eq.
    + by rewrite lookup_insert_ne by (symmetry; apply scores_labels_distinct).
Qed.

(** X9. Predicting labels on a batch that went through the step-end hook gives
    what predicting labels on the batch itself gives: when [_post_process]
    without labels returns [o1], a call with labels on [o1] equals the call
    with labels on the original batch. *)
Theorem post_process_labels_after_step_end
    (self : AnomalyModule) (outputs o1 : gmap string value) :
  _post_process self outputs false = (o1, Ok ()) ->
  _post_process self o1 true = _post_process self outputs true.
Proof.
  intros H. destruct (post_process_ok_inv _ _ _ _ H) as (o1' & H1 & Hshape & Hb).
  destruct Hb as [(_ & ->)|(? & _)]; [|discriminate].
  destruct Hshape as [->|(v & ->)]; [done|].
  rewrite (post_process_with_scores _ _ true v) by apply lookup_insert_eq.
  revert H1. unfold _post_process.
  destruct (if negb _ && _ then _ else _) as [o|e]; [|discriminate].
  intros [= ->].
  by rewrite (getitem_Some "pred_scores" _ v) by apply lookup_insert_eq.
Qed.

(** X10. [_post_process] never removes a key and adds no key other than the
    predicted scores and the predicted labels, also when it raises. *)
Theorem post_process_keys
    (self : AnomalyModule) (outputs : gmap string value) (b : bool) :
  dom outputs ⊆ dom (_post_process self outputs b).1 /\
  dom (_post_process self outputs b).1 ⊆ dom outputs ∪ {[ "pred_scores"; "pred_labels" ]}.
Proof.
  destruct (post_process_cases self outputs b) as (o1 & Hfirst & Hsecond).
  assert (dom outputs ⊆ dom o1 /\ dom o1 ⊆ dom outputs ∪ {[ "pred_scores" ]}) as [Ha Hb].
  { destruct Hfirst as [->|(_ & v & ->)]; [by split; [|apply union_subseteq_l]|].
    rewrite dom_insert_L. split; [apply union_subseteq_r | by rewrite (comm_L (∪))]. }
  assert (dom o1 ⊆ dom outputs ∪ {[ "pred_scores"; "pred_labels" ]}) as Hb'.
  { etrans; [exact Hb|]. apply union_mono_l, union_subseteq_l. }
  destruct Hsecond as [->|(_ & l & ->)]; [by split|].
  cbn [fst]. rewrite dom_insert_L. split.
  - etrans; [exact Ha | apply union_subseteq_r].
  - apply union_least; [|exact Hb'].
    etrans; [|apply union_subseteq_r]. apply union_subseteq_r.
Qed.

(** X11. The step-end hooks never change the module, and on a batch that already
    has scores, or has no anomaly maps, they return the batch as it is and do
    not raise. *)
Theorem step_end_hooks_pure
    (self : AnomalyModule) (outputs : gmap string value) :
  (validation_step_end outputs self).1 = self /\
  (test_step_end outputs self).1 = self /\
  (is_Some (outputs !! "pred_scores") \/ outputs !! "anomaly_maps" = None ->
   validation_step_end outputs self = (self, Ok outputs) /\
   test_step_end outputs self = (self, Ok outputs)).
Proof.
  assert ((validation_step_end outputs self).1 = self) as Hpure.
  { unfold validation_step_end, post_processed.
    by destruct (_post_process self outputs false) as [o [[]|e]]. }
  split; [exact Hpure|]. split; [exact Hpure|].
  intros Hkeys.
  assert (_post_process self outputs false = (outputs, Ok ())) as Hid.
  { destruct Hkeys as [[v Hv]|Hnone].
    - by rewrite (post_process_with_scores _ _ _ v).
    - unfold _post_process. by rewrite (contains_None _ _ Hnone), andb_false_r. }
  unfold validation_step_end, test_step_end, post_processed. by rewrite Hid.
Qed.

End PostProcessEffects.

(** ** Labels and the threshold that is current *)

Section Labels.
Context {D : Domain} {C : Collaborators D}.

Lemma post_process_labels_run
    (self : AnomalyModule) (outputs : gmap string value) (s : tensor) (x : scalar) :
  outputs !! "pred_scores" = Some (VTensor s) ->
  item (threshold self) = Ok x ->
  _post_process self outputs true = (<["pred_labels" := labels_at x s]> outputs, Ok ()).
Proof.
  intros Hs Hx. rewrite (post_process_with_scores _ _ _ (VTensor s)) by done.
  by rewrite Hx.
Qed.

(** X12. A module as constructed labels with the default threshold as its
    tensor of single precision holds it: on a batch with scores, label
    prediction right after construction compares every score with
    [default_threshold] rounded to single precision. *)
Theorem fresh_module_labels_at_default
    (task : string) (adaptive : bool) (default_threshold : scalar)
    (m : AnomalyModule) (outputs : gmap string value) (s : tensor) :
  __init__ task adaptive default_threshold = Ok m ->
  outputs !! "pred_scores" = Some (VTensor s) ->
  _post_process m outputs true
  = (<["pred_labels" := labels_at (to_float32 default_threshold) s]> outputs, Ok ()).
Proof.
  intros Hm Hs. apply post_process_labels_run; [done|].
  revert Hm. unfold __init__.
  destruct (String.eqb task "classification"); [by intros [= <-]|].
  destruct (String.eqb task "segmentation"); [by intros [= <-]|discriminate].
Qed.

(** X13. The threshold found in validation is the one prediction uses: after a
    validation epoch in adaptive mode in which the helper returned [t], label
    prediction compares every score with [t] rounded to single precision,
    also when the evaluation of that epoch raised. *)
Theorem labels_after_adaptive_epoch
    (self : AnomalyModule) (outputs : list (gmap string value))
    (st1 : rstate) (t f1 : scalar) (b : gmap string value) (s : tensor) :
  adaptive_threshold self = true ->
  store_outputs (results_class (results self)) (results_state (results self)) outputs
    = (st1, Ok ()) ->
  compute_threshold_and_f1_score (true_labels st1) (pred_scores st1) = Ok (t, f1) ->
  b !! "pred_scores" = Some (VTensor s) ->
  _post_process (validation_epoch_end outputs self).1 b true
  = (<["pred_labels" := labels_at (to_float32 t) s]> b, Ok ()).
Proof.
  intros Had Hst Hc Hs. apply post_process_labels_run; [done|].
  rewrite (validation_epoch_end_adaptive_run self outputs st1 t f1 Had Hst Hc).
  destruct (keeps_evaluate_and_log
              (set_threshold (tensor_of_scalar t) (set_results_state st1 self)).1) as (H & _).
  by rewrite H.
Qed.

(** X14. Raising the threshold never adds a positive: for the same batch, every
    sample labelled true at the higher threshold is labelled true at the
    lower one, and the two label tensors have the same shape. *)
Theorem labels_antitone_in_threshold `{!DomainOrder D}
    (self1 self2 : AnomalyModule) (outputs out1 out2 : gmap string value)
    (x1 x2 : scalar) (sh1 sh2 : list nat) (l1 l2 : list bool) :
  item (threshold self1) = Ok x1 ->
  item (threshold self2) = Ok x2 ->
  sge x2 x1 = true ->
  _post_process self1 outputs true = (out1, Ok ()) ->
  _post_process self2 outputs true = (out2, Ok ()) ->
  out1 !! "pred_labels" = Some (VMask sh1 l1) ->
  out2 !! "pred_labels" = Some (VMask sh2 l2) ->
  sh1 = sh2 /\ length l1 = length l2 /\
  forall i, l2 !! i = Some true -> l1 !! i = Some true.
Proof.
  intros Hx1 Hx2 Hge H1 H2 Hl1 Hl2.
  destruct (post_process_ok_inv _ _ _ _ H1) as (o1 & Ho1 & _ & Hb1).
  destruct (post_process_ok_inv _ _ _ _ H2) as (o2 & Ho2 & _ & Hb2).
  change (_post_process self2 outputs false) with (_post_process self1 outputs false) in Ho2.
  rewrite Ho1 in Ho2. injection Ho2 as <-.
  destruct Hb1 as [(? & _)|(_ & v1 & y1 & m1 & Hv1 & Hy1 & Hm1 & ->)]; [discriminate|].
  destruct Hb2 as [(? & _)|(_ & v2 & y2 & m2 & Hv2 & Hy2 & Hm2 & ->)]; [discriminate|].
  rewrite Hx1 in Hy1. injection Hy1 as <-. rewrite Hx2 in Hy2. injection Hy2 as <-.
  rewrite Hv1 in Hv2. injection Hv2 as <-.
  rewrite lookup_insert_eq in Hl1, Hl2.
  destruct (ge_scalar_scores _ _ _ Hm1) as (s & Hs & ->).
  destruct (ge_scalar_scores _ _ _ Hm2) as (s' & Hs' & ->).
  rewrite Hs in Hs'. injection Hs' as <-.
  injection Hl1 as <- <-. injection Hl2 as <- <-.
  split; [done|]. split; [by rewrite !length_fmap|].
  intros i. rewrite !list_lookup_fmap.
  destruct (data s !! i) as [y|]; [|discriminate]. cbn.
  intros [= Hy]. f_equal. eapply sge_trans; [exact Hy | exact Hge].
Qed.

(** X15. A sample is flagged exactly when its map reaches the threshold
    somewhere: on a batch without scores whose anomaly maps have at least one
    sample and one element per sample, label prediction returns, and the
    label of a sample is true if and only if some element of that sample's
    map is [>=] the threshold. *)
Theorem sample_flagged_iff_map_reaches_threshold `{!DomainOrder D}
    (self : AnomalyModule) (outputs : gmap string value)
    (t : tensor) (n : nat) (rest : list nat) (x : scalar) :
  outputs !! "pred_scores" = None ->
  outputs !! "anomaly_maps" = Some (VTensor t) ->
  tensor_wf t -> shape t = n :: rest -> 0 < n -> 0 < numel rest ->
  item (threshold self) = Ok x ->
  exists out labels,
    _post_process self outputs true = (out, Ok ()) /\
    out !! "pred_labels" = Some (VMask [n] labels) /\
    length labels = n /\
    forall i, i < n ->
      (labels !! i = Some true <->
       exists y, y ∈ sample (numel rest) i t /\ sge y x = true).
Proof.
  intros Hps Ham Hwf Hsh Hn Hm Hx.
  destruct (max_over_maps_ok t n rest Hwf Hsh Hn Hm) as (s & Hs & Hlen & Hmax).
  exists (<["pred_labels" := labels_at x (Tensor [n] s)]>
            (<["pred_scores" := VTensor (Tensor [n] s)]> outputs)),
         ((fun y => sge y x) <$> s).
  split; [|split; [apply lookup_insert_eq|split; [by rewrite length_fmap|]]].
  - unfold _post_process.
    rewrite (contains_None _ _ Hps), (contains_Some _ _ _ Ham), (getitem_Some _ _ _ Ham).
    cbn [negb andb mbind result_bind]. rewrite Hs. cbn [mbind result_bind mret result_ret].
    rewrite (getitem_Some "pred_scores" _ (VTensor (Tensor [n] s)))
      by apply lookup_insert_eq.
    cbn [mbind result_bind]. by rewrite Hx.
  - intros i Hi. destruct (Hmax i Hi) as (top & Htop & Hrow).
    assert (is_max_of top (sample (numel rest) i t)) as [Hin Hub].
    { unfold row_max in Hrow. destruct (sample _ _ _) as [|y ys]; [done|].
      injection Hrow as <-. apply foldl_smax_is_max. }
    rewrite list_lookup_fmap, Htop. cbn. split.
    + intros [= Hy]. by exists top.
    + intros (y & Hy & Hge). f_equal. eapply sge_trans; [by apply Hub | exact Hge].
Qed.

End Labels.

(** ** The further properties on concrete inputs *)

Section ConcreteEffects.
Import Example Strict.

#[local] Existing Instance ZDomainOrder.

Lemma test_epoch_end_evaluates_and_logs_witness :
  test_epoch_end [scored] fixed_module
  = (add_trace [EvLog "positives" 2%Z] (set_results_state (evaluated 2) fixed_module), Ok ()).
Proof.
  exact (test_epoch_end_evaluates_and_logs (D:=ZDomain) fixed_module [scored]
           stored (evaluated 2) 5%Z eq_refl eq_refl eq_refl).
Defined.

Lemma test_epoch_end_propagates_witness :
  test_epoch_end [unscored] fixed_module
    = (fixed_module, Raise (KeyError "pred_scores")) /\
  test_epoch_end (C:=StrictCollaborators) [] fixed_module
    = (fixed_module, Raise (ExternalError "nothing to evaluate")).
Proof.
  split.
  - exact (proj1 (test_epoch_end_propagates (D:=ZDomain) fixed_module [unscored])
             empty (KeyError "pred_scores") eq_refl).
  - exact (proj2 (test_epoch_end_propagates (D:=ZDomain) (C:=StrictCollaborators)
                    fixed_module [])
             empty empty 5%Z (ExternalError "nothing to evaluate") eq_refl eq_refl eq_refl).
Defined.

(** The helper proposes 16777217; the threshold holds 16777216, and two of
    the scores 2, 16777216, 16777217 reach it. *)
Lemma validation_epoch_end_adaptive_effects_witness :
  exists self',
    validation_epoch_end [scored_wide] adaptive_module = (self', Ok ()) /\
    results_state (results self') = evaluated_wide 2 /\
    threshold self' = Tensor [1] [16777216%Z] /\
    trace self' = [EvSetThreshold (Tensor [1] [16777216%Z]); EvLog "positives" 2%Z].
Proof.
  exact (validation_epoch_end_adaptive_effects (D:=ZDomain) adaptive_module [scored_wide]
           stored_wide (evaluated_wide 2) 16777217%Z 1%Z eq_refl eq_refl eq_refl eq_refl).
Defined.

Lemma validation_epoch_end_helper_raises_witness :
  validation_epoch_end [] adaptive_module
  = (adaptive_module, Raise (ExternalError "no scores")).
Proof.
  exact (validation_epoch_end_helper_raises (D:=ZDomain) adaptive_module []
           empty (ExternalError "no scores") eq_refl eq_refl eq_refl).
Defined.

Lemma validation_epoch_end_fixed_is_test_epoch_end_witness :
  validation_epoch_end [scored] fixed_module = test_epoch_end [scored] fixed_module.
Proof.
  exact (validation_epoch_end_fixed_is_test_epoch_end (D:=ZDomain) fixed_module [scored]
           eq_refl).
Defined.

Lemma post_process_idempotent_witness :
  _post_process adaptive_module (_post_process adaptive_module mapped true).1 true
  = ((_post_process adaptive_module mapped true).1, Ok ()).
Proof.
  apply (post_process_idempotent (D:=ZDomain) adaptive_module mapped). reflexivity.
Defined.

Lemma post_process_labels_after_step_end_witness :
  _post_process adaptive_module (_post_process adaptive_module mapped false).1 true
  = _post_process adaptive_module mapped true.
Proof.
  apply (post_process_labels_after_step_end (D:=ZDomain) adaptive_module mapped).
  reflexivity.
Defined.

Lemma step_end_hooks_pure_witness :
  validation_step_end scored fixed_module = (fixed_module, Ok scored) /\
  test_step_end unscored fixed_module = (fixed_module, Ok unscored).
Proof.
  split.
  - apply (step_end_hooks_pure (D:=ZDomain) fixed_module scored). left. by eexists.
  - apply (step_end_hooks_pure (D:=ZDomain) fixed_module unscored). by right.
Defined.

(** With the default threshold 16777217 the score 16777216 is labelled
    true: the threshold tensor holds 16777216. *)
Lemma fresh_module_labels_at_default_witness :
  exists m, __init__ "classification" true 16777217%Z = Ok m /\
            _post_process m scored_wide true
            = (<["pred_labels" := VMask [3] [false; true; true]]> scored_wide, Ok ()).
Proof.
  eexists. split; [reflexivity|].
  exact (fresh_module_labels_at_default (D:=ZDomain) "classification" true 16777217%Z _
           scored_wide (Tensor (D:=ZDomain) [3] [2; 16777216; 16777217]%Z) eq_refl eq_refl).
Defined.

Lemma labels_after_adaptive_epoch_witness :
  _post_process (validation_epoch_end [scored_wide] adaptive_module).1 scored_wide true
  = (<["pred_labels" := VMask [3] [false; true; true]]> scored_wide, Ok ()).
Proof.
  exact (labels_after_adaptive_epoch (D:=ZDomain) adaptive_module [scored_wide]
           stored_wide 16777217%Z 1%Z scored_wide
           (Tensor (D:=ZDomain) [3] [2; 16777216; 16777217]%Z)
           eq_refl eq_refl eq_refl eq_refl).
Defined.

(** Thresholds 5 and 8 on the scores 2, 5, 8. *)
Lemma labels_antitone_in_threshold_witness :
  [3] = [3] /\ length [false; true; true] = length [false; false; true] /\
  forall i, [false; false; true] !! i = Some true -> [false; true; true] !! i = Some true.
Proof.
  apply (labels_antitone_in_threshold (D:=ZDomain)
           adaptive_module (validation_epoch_end [scored] adaptive_module).1 scored
           (<["pred_labels" := VMask [3] [false; true; true]]> scored)
           (<["pred_labels" := VMask [3] [false; false; true]]> scored)
           5%Z 8%Z); reflexivity.
Defined.

Lemma sample_flagged_iff_map_reaches_threshold_witness :
  exists out labels,
    _post_process adaptive_module mapped true = (out, Ok ()) /\
    out !! "pred_labels" = Some (VMask [2] labels) /\
    length labels = 2 /\
    forall i, i < 2 ->
      (labels !! i = Some true <-> exists y, y ∈ sample 4 i maps22 /\ sge y 5%Z = true).
Proof.
  apply (sample_flagged_iff_map_reaches_threshold (D:=ZDomain)
           adaptive_module mapped maps22 2 [2; 2] 5%Z).
  - reflexivity.
  - reflexivity.
  - reflexivity.
  - reflexivity.
  - lia.
  - simpl. lia.
  - reflexivity.
Defined.

End ConcreteEffects.
